(** * MediCare AI: dose lifecycle, stock classification, voice responder
      and hardware telemetry, embedded from the TypeScript sources.

    Conventions of the embedding.
    - A TypeScript [number] that the program uses as a count (quantities,
      thresholds, frequencies, sensor readings) is an integer [Z].
    - A [Date] is its epoch value in milliseconds, a [Z].  For the
      functions on days and hours the local time zone is a fixed offset
      [tz] (milliseconds east of UTC); for [getMinutes] and [setMinutes]
      it is a [Zone], whose offset may change (daylight saving).
    - An optional field [f?: T] is an [option T].
    - A string is a [string] of bytes (UTF-8 for the Hindi and Kannada
      texts).
    - A price is the rational its decimal literal denotes, a [Q].
    - [Math.random()] and the clock are inputs of the functions that read
      them; a function that reads the clock several times takes one input
      per read. *)

From Stdlib Require Import ZArith QArith List String Ascii Bool Lia.
From Stdlib Require Import DecimalString Permutation.
Import ListNotations.

Open Scope string_scope.
Open Scope list_scope.
Open Scope Z_scope.

(* ================================================================= *)
(** ** types/index.ts *)

Definition Date := Z.

Module Medicine.
Record t := mk {
  id : string;
  name : string;
  dosage : string;
  frequency : Z;
  totalQuantity : Z;
  remainingQuantity : Z;
  criticalThreshold : Z;
  prescribedBy : string;
  startDate : Date;
  endDate : option Date;
  instructions : string;
  sideEffects : option (list string);
  imageUrl : option string
}.

(** [{ ...medicine, remainingQuantity: q }] *)
Definition with_remainingQuantity (m : t) (q : Z) : t :=
  mk (id m) (name m) (dosage m) (frequency m) (totalQuantity m) q
     (criticalThreshold m) (prescribedBy m) (startDate m) (endDate m)
     (instructions m) (sideEffects m) (imageUrl m).
End Medicine.

Inductive DoseStatus := Pending | Taken | Missed | Snoozed | TakenLate.

Definition DoseStatus_eqb (a b : DoseStatus) : bool :=
  match a, b with
  | Pending, Pending | Taken, Taken | Missed, Missed
  | Snoozed, Snoozed | TakenLate, TakenLate => true
  | _, _ => false
  end.

Module DoseSchedule.
Record t := mk {
  id : string;
  medicineId : string;
  scheduledTime : Date;
  taken : bool;
  takenAt : option Date;
  skipped : bool;
  status : DoseStatus;
  snoozeUntil : option Date;
  notes : option string
}.
End DoseSchedule.

(** The [status] of an order is the string the program stores: the
    hook's refill orders copy it from the 1mg response through a cast
    ([as 'confirmed']) that is erased at run time. *)
Module RefillOrder.
Record t := mk {
  id : string;
  medicineId : string;
  quantity : Z;
  orderDate : Date;
  estimatedDelivery : Date;
  status : string;
  orderId1MG : option string
}.
End RefillOrder.

Inductive Language := en | hi | kn.

Module VoiceQuery.
Record t := mk {
  id : string;
  query : string;
  language : Language;
  intent : string;
  response : string;
  timestamp : Date
}.
End VoiceQuery.

Module BlynkData.
Record t := mk {
  pillCount : Z;
  batteryLevel : Z;
  temperature : Z;
  humidity : Z;
  dispenserStatus : Z;
  motionSensor : bool;
  lastDispensed : Z;
  connected : bool
}.
End BlynkData.

Inductive ActivityType := Dispense | Notification | StatusChange.

Module HardwareActivity.
Record t := mk {
  id : string;
  type : ActivityType;
  message : string;
  timestamp : Date;
  success : bool
}.
End HardwareActivity.

(* ================================================================= *)
(** ** JavaScript library functions used by the services *)

(** [n.toString()] and [`${n}`] for an integer. *)
Definition Z_toString (n : Z) : string :=
  NilZero.string_of_int (Z.to_int n).

(** *** Local time, after ECMA-262 (21.4.1)

    A time zone: the offset of local time from UTC before any change, in
    milliseconds, and the instants at which the offset changes, in
    ascending order, each with the offset from then on. *)
Record Zone := mkZone {
  base : Z;
  changes : list (Z * Z)
}.

(** A zone whose offset never changes. *)
Definition fixed (tz : Z) : Zone := mkZone tz [].

(** The offset in force at the instant [u]; [o] is the offset before the
    changes listed. *)
Fixpoint offset_from (o : Z) (changes : list (Z * Z)) (u : Z) : Z :=
  match changes with
  | [] => o
  | (change, o') :: rest =>
      if u <? change then o else offset_from o' rest u
  end.

Definition offsetAt (zone : Zone) (u : Z) : Z :=
  offset_from (base zone) (changes zone) u.

(** [LocalTime(t)] *)
Definition LocalTime (zone : Zone) (t : Z) : Z := t + offsetAt zone t.

(** The instants whose local time is [local], in ascending order: none
    for a local time that a forward change skips, two for one that a
    backward change repeats.  [o] is the offset in force from [since]
    (from ever, for [None]) to the first change listed. *)
Fixpoint possibleInstants_from (o : Z) (since : option Z)
         (changes : list (Z * Z)) (local : Z) : list Z :=
  let u := local - o in
  let started := match since with
                 | None => true
                 | Some change => change <=? u
                 end in
  match changes with
  | [] => if started then [u] else []
  | (change, o') :: rest =>
      (if (started && (u <? change))%bool then [u] else [])
      ++ possibleInstants_from o' (Some change) rest local
  end.

Definition possibleInstants (zone : Zone) (local : Z) : list Z :=
  possibleInstants_from (base zone) None (changes zone) local.

(** For a local time that is skipped: the offset in force before the
    change that skips it. *)
Fixpoint skippedOffset_from (o : Z) (changes : list (Z * Z)) (local : Z) : Z :=
  match changes with
  | [] => o
  | (change, o') :: rest =>
      if ((change + o <=? local) && (local <? change + o'))%bool then o
      else skippedOffset_from o' rest local
  end.

(** [UTC(t)]: the first of the possible instants of the local time; for
    a skipped local time, the local time read with the offset before
    the change. *)
Definition UTC (zone : Zone) (local : Z) : Z :=
  match possibleInstants zone local with
  | u :: _ => u
  | [] => local - skippedOffset_from (base zone) (changes zone) local
  end.

Definition Day (t : Z) : Z := t / 86400000.
Definition HourFromTime (t : Z) : Z := (t / 3600000) mod 24.
Definition MinFromTime (t : Z) : Z := (t / 60000) mod 60.
Definition SecFromTime (t : Z) : Z := (t / 1000) mod 60.
Definition msFromTime (t : Z) : Z := t mod 1000.

Definition MakeTime (hour min sec ms : Z) : Z :=
  hour * 3600000 + min * 60000 + sec * 1000 + ms.

Definition MakeDate (day time : Z) : Z := day * 86400000 + time.

(** [Date.prototype.getMinutes]: the minutes field of the local time. *)
Definition getMinutes (zone : Zone) (d : Date) : Z :=
  MinFromTime (LocalTime zone d).

(** [Date.prototype.setMinutes(m)]: the local time with its minutes
    field set to [m] (values outside 0..59 carry into the hours), taken
    back to an instant by [UTC]. *)
Definition setMinutes (zone : Zone) (d : Date) (m : Z) : Date :=
  let t := LocalTime zone d in
  let date :=
    MakeDate (Day t) (MakeTime (HourFromTime t) m (SecFromTime t) (msFromTime t)) in
  UTC zone date.

(** The day of the month of a day number (days since 1970-01-01), by the
    proleptic Gregorian calendar: the 400-year era of the day, the year
    of the era, the day of the year counted from 1 March, the month
    counted from March. *)
Definition dayOfMonth (days : Z) : Z :=
  let z := days + 719468 in
  let doe := z mod 146097 in
  let yoe := (doe - doe / 1460 + doe / 36524 - doe / 146096) / 365 in
  let doy := doe - (365 * yoe + yoe / 4 - yoe / 100) in
  let mp := (5 * doy + 2) / 153 in
  doy - (153 * mp + 2) / 5 + 1.

(** [Date.prototype.getDate] and [setDate] in a zone of fixed offset:
    setting the day of the month to [v] moves the instant by whole days
    (values of [v] outside the month carry into the next months, as in
    JavaScript). *)
Definition getDate (tz : Z) (d : Date) : Z :=
  dayOfMonth ((d + tz) / 86400000).

Definition setDate (tz : Z) (d : Date) (v : Z) : Date :=
  d + (v - getDate tz d) * 86400000.

(** [Math.ceil(a / b)] for integers [a] and [b > 0]. *)
Definition ceil_div (a b : Z) : Z := - ((- a) / b).

(** [a.toDateString() === b.toDateString()], and date-fns'
    [format(a, 'yyyy-MM-dd') === format(b, 'yyyy-MM-dd')]: same local
    calendar day. *)
Definition sameDateString (tz : Z) (a b : Date) : bool :=
  Z.eqb ((a + tz) / 86400000) ((b + tz) / 86400000).

(** [String.prototype.toLowerCase] on the ASCII letters; every other
    byte is kept (Devanagari and Kannada have no case).  The texts the
    services compare are ASCII, Devanagari and Kannada; a query with
    other cased letters (accented Latin, Greek, ...) is outside this
    model. *)
Definition lower_ascii (c : ascii) : ascii :=
  let n := nat_of_ascii c in
  if (Nat.leb 65 n && Nat.leb n 90)%bool then ascii_of_nat (n + 32) else c.

Fixpoint toLowerCase (s : string) : string :=
  match s with
  | EmptyString => EmptyString
  | String c r => String (lower_ascii c) (toLowerCase r)
  end.

(** [s.includes(sub)] *)
Fixpoint includes (s sub : string) : bool :=
  (String.prefix sub s ||
   match s with
   | EmptyString => false
   | String _ r => includes r sub
   end)%bool.

(** [xs.join(sep)] *)
Definition join (sep : string) (xs : list string) : string :=
  String.concat sep xs.

(* ================================================================= *)
(** ** services/oneMgApiService.ts *)

Module OneMgApiService.

Record OneMgMedicine := mkMedicine {
  id : string;
  name : string;
  manufacturer : string;
  price : Q;
  mrp : Q;
  discount : Q;
  availability : bool;
  prescription_required : bool;
  pack_size : string;
  composition : string;
  image_url : string
}.

(** [estimated_delivery] is the ISO string of an instant; it is kept as
    the instant ([toISOString] and [new Date(iso)] are inverse at
    millisecond precision). *)
Record OneMgOrderResponse := mkResponse {
  order_id : string;
  status : string;
  estimated_delivery : Date;
  tracking_id : option string;
  total_amount : Q;
  payment_status : string
}.

Definition mockMedicines : list OneMgMedicine :=
  [ mkMedicine "1mg_001" "Metformin 500mg" "Sun Pharma"
      (91 # 2) (52 # 1) (25 # 2) true true "15 tablets"
      "Metformin Hydrochloride 500mg"
      "https://images.pexels.com/photos/3683097/pexels-photo-3683097.jpeg?auto=compress&cs=tinysrgb&w=400";
    mkMedicine "1mg_002" "Lisinopril 10mg" "Cipla"
      (357 # 4) (105 # 1) (15 # 1) true true "10 tablets"
      "Lisinopril 10mg"
      "https://images.pexels.com/photos/3683097/pexels-photo-3683097.jpeg?auto=compress&cs=tinysrgb&w=400" ].

Definition searchMedicine (query : string) : list OneMgMedicine :=
  filter (fun med => includes (toLowerCase (name med)) (toLowerCase query))
         mockMedicines.

(** The three reads of [Date.now()] in [placeOrder]. *)
Record OrderClock := {
  atOrderId : Z;
  atDelivery : Z;
  atTracking : Z
}.

(** [userDetails] only goes into the payload that is logged. *)
Definition placeOrder (clock : OrderClock) (medicineId : string)
           (quantity : Z) : OneMgOrderResponse :=
  mkResponse ("1MG" ++ Z_toString (atOrderId clock))%string
             "confirmed"
             (atDelivery clock + 2 * 24 * 60 * 60 * 1000)
             (Some ("TRK" ++ Z_toString (atTracking clock))%string)
             (Qmult (inject_Z quantity) (91 # 2))
             "completed".

End OneMgApiService.

(* ================================================================= *)
(** ** services/apiService.ts *)

Module APIService.

(** The four reads of the clock in [simulateRefillOrder], in the order
    of the source. *)
Record Clock := {
  atOrderId : Z;
  atDelivery : Z;
  atId : Z;
  atOrderDate : Z
}.

Definition simulateRefillOrder (clock : Clock) (medicine : Medicine.t)
           (quantity : Z) : RefillOrder.t :=
  RefillOrder.mk (Z_toString (atId clock))
                 (Medicine.id medicine)
                 quantity
                 (atOrderDate clock)
                 (atDelivery clock + 2 * 24 * 60 * 60 * 1000)
                 "confirmed"
                 (Some ("1MG" ++ Z_toString (atOrderId clock))%string).

End APIService.

(* ================================================================= *)
(** ** services/inventoryService.ts *)

Module InventoryService.

Inductive StockLevel := critical | low | adequate.

Definition StockLevel_eqb (a b : StockLevel) : bool :=
  match a, b with
  | critical, critical | low, low | adequate, adequate => true
  | _, _ => false
  end.

Definition checkStockLevel (medicine : Medicine.t) : StockLevel :=
  if Medicine.remainingQuantity medicine <=? Medicine.criticalThreshold medicine
  then critical
  else if Medicine.remainingQuantity medicine
            <=? Medicine.criticalThreshold medicine * 2
  then low
  else adequate.

Definition calculateDaysRemaining (medicine : Medicine.t) : Z :=
  if Z.eqb (Medicine.frequency medicine) 0 then 0
  else Medicine.remainingQuantity medicine / Medicine.frequency medicine.

(** What [autoRefillIfNeeded] reads from outside: the availability draw
    of [checkAvailability], the clock of [placeOrder], and its own two
    reads of the clock for the order it builds. *)
Record RefillEnv := {
  available : bool;      (* Math.random() > 0.1 *)
  orderClock : OneMgApiService.OrderClock;
  atId : Z;              (* Date.now().toString() *)
  atOrderDate : Z        (* new Date() *)
}.

Definition autoRefillIfNeeded (env : RefillEnv) (medicine : Medicine.t)
  : option RefillOrder.t :=
  let stockLevel := checkStockLevel medicine in
  match stockLevel with
  | critical =>
      if available env then
        let orderResponse :=
          OneMgApiService.placeOrder (orderClock env)
            ("1mg_" ++ Medicine.id medicine)%string
            (Medicine.totalQuantity medicine) in
        Some (RefillOrder.mk
                (Z_toString (atId env))
                (Medicine.id medicine)
                (Medicine.totalQuantity medicine)
                (atOrderDate env)
                (OneMgApiService.estimated_delivery orderResponse)
                (OneMgApiService.status orderResponse)
                (Some (OneMgApiService.order_id orderResponse)))
      else None
  | _ => None
  end.

(** [now] is the value of [new Date()]. *)
Definition predictRefillDate (tz : Z) (now : Date) (medicine : Medicine.t)
  : Date :=
  let daysRemaining := calculateDaysRemaining medicine in
  setDate tz now (getDate tz now + daysRemaining).

Definition updateStock (medicineId : string) (medicines : list Medicine.t)
           (taken : bool) : list Medicine.t :=
  map (fun medicine =>
         if (String.eqb (Medicine.id medicine) medicineId && taken)%bool
         then Medicine.with_remainingQuantity medicine
                (Z.max 0 (Medicine.remainingQuantity medicine - 1))
         else medicine)
      medicines.

Definition calculateStockValue (medicines : list Medicine.t) : Z :=
  fold_left (fun total medicine =>
               let estimatedPrice := 50 in
               total + Medicine.remainingQuantity medicine * estimatedPrice)
            medicines 0.

Inductive AlertType := critical_alert | low_alert | expiring_alert.

Definition AlertType_eqb (a b : AlertType) : bool :=
  match a, b with
  | critical_alert, critical_alert | low_alert, low_alert
  | expiring_alert, expiring_alert => true
  | _, _ => false
  end.

Record Alert := mkAlert {
  type : AlertType;
  medicine : Medicine.t;
  message : string
}.

(** The body of the [forEach] of [getStockAlerts]: the alerts pushed for
    one medicine, [now] being the clock read for it. *)
Definition alertsFor (now : Date) (medicine : Medicine.t) : list Alert :=
  let stockLevel := checkStockLevel medicine in
  let daysRemaining := calculateDaysRemaining medicine in
  (match stockLevel with
   | critical =>
       [ mkAlert critical_alert medicine
           ("Only " ++ Z_toString (Medicine.remainingQuantity medicine)
            ++ " tablets left (" ++ Z_toString daysRemaining ++ " days)")%string ]
   | low =>
       [ mkAlert low_alert medicine
           ("Running low: " ++ Z_toString (Medicine.remainingQuantity medicine)
            ++ " tablets remaining")%string ]
   | adequate => []
   end)
  ++
  (match Medicine.endDate medicine with
   | Some endDate =>
       let daysToExpiry := ceil_div (endDate - now) (1000 * 60 * 60 * 24) in
       if ((daysToExpiry <=? 30) && (0 <? daysToExpiry))%bool
       then [ mkAlert expiring_alert medicine
                ("Expires in " ++ Z_toString daysToExpiry ++ " days")%string ]
       else []
   | None => []
   end).

(** [clock i] is the clock while the medicine at index [i] is visited. *)
Fixpoint forEach_alerts (clock : nat -> Date) (i : nat)
         (medicines : list Medicine.t) : list Alert :=
  match medicines with
  | [] => []
  | medicine :: rest =>
      alertsFor (clock i) medicine ++ forEach_alerts clock (S i) rest
  end.

Definition getStockAlerts (clock : nat -> Date) (medicines : list Medicine.t)
  : list Alert :=
  forEach_alerts clock 0%nat medicines.

End InventoryService.

(* ================================================================= *)
(** ** hooks/useMedicineData.ts *)

Module useMedicineData.

(** The hook's state cells that the dose operations read and write.
    An operation is a callback of a render: it reads the lists of that
    render and queues updaters that run on the state of the moment.  The
    four operations below are called through the callbacks of the latest
    render, so that the two are the same state; [markDoseTaken_stale] is
    [markDoseTaken] without that. *)
Record State := mkState {
  medicines : list Medicine.t;
  schedules : list DoseSchedule.t;
  refillOrders : list RefillOrder.t
}.

(** [today.setHours(h, m, 0, 0)] in the zone of offset [tz]. *)
Definition setHours (tz : Z) (d : Date) (h m : Z) : Date :=
  ((d + tz) / 86400000) * 86400000 - tz + h * 3600000 + m * 60000.

Definition sampleMedicines : list Medicine.t :=
  [ Medicine.mk "1" "Metformin 500mg" "500mg" 2 60 8 10 "Dr. Sharma"
      1704067200000 None "Take with meals"
      (Some ["Nausea"; "Diarrhea"])
      (Some "https://images.pexels.com/photos/3683097/pexels-photo-3683097.jpeg?auto=compress&cs=tinysrgb&w=400");
    Medicine.mk "2" "Lisinopril 10mg" "10mg" 1 30 4 5 "Dr. Patel"
      1704067200000 None "Take in the morning" None
      (Some "https://images.pexels.com/photos/3683097/pexels-photo-3683097.jpeg?auto=compress&cs=tinysrgb&w=400");
    Medicine.mk "3" "Vitamin D3 1000IU" "1000IU" 1 100 15 15 "Dr. Reddy"
      1704067200000 None "Take with fatty meal" None
      (Some "https://images.pexels.com/photos/3683097/pexels-photo-3683097.jpeg?auto=compress&cs=tinysrgb&w=400") ].

Definition sampleSchedules (tz : Z) (today : Date) : list DoseSchedule.t :=
  [ DoseSchedule.mk "1" "1" (setHours tz today 8 0) true
      (Some (setHours tz today 8 15)) false Taken None None;
    DoseSchedule.mk "2" "1" (setHours tz today 20 0) false None false
      Pending None None;
    DoseSchedule.mk "3" "2" (setHours tz today 9 0) false None false
      Pending None None;
    DoseSchedule.mk "4" "3" (setHours tz today 10 0) false None false
      Pending None None ].

Definition initialState (tz : Z) (today : Date) : State :=
  mkState sampleMedicines (sampleSchedules tz today) [].

(** The object spreads of the four updaters. *)
Definition set_taken (now : Date) (s : DoseSchedule.t) : DoseSchedule.t :=
  DoseSchedule.mk (DoseSchedule.id s) (DoseSchedule.medicineId s)
    (DoseSchedule.scheduledTime s) true (Some now) (DoseSchedule.skipped s)
    Taken (DoseSchedule.snoozeUntil s) (DoseSchedule.notes s).

Definition set_missed (reason : option string) (s : DoseSchedule.t)
  : DoseSchedule.t :=
  DoseSchedule.mk (DoseSchedule.id s) (DoseSchedule.medicineId s)
    (DoseSchedule.scheduledTime s) (DoseSchedule.taken s)
    (DoseSchedule.takenAt s) true Missed (DoseSchedule.snoozeUntil s)
    reason.

Definition set_snoozed (snoozeUntil : Date) (s : DoseSchedule.t)
  : DoseSchedule.t :=
  DoseSchedule.mk (DoseSchedule.id s) (DoseSchedule.medicineId s)
    (DoseSchedule.scheduledTime s) (DoseSchedule.taken s)
    (DoseSchedule.takenAt s) (DoseSchedule.skipped s) Snoozed
    (Some snoozeUntil) (DoseSchedule.notes s).

Definition set_taken_late (now : Date) (s : DoseSchedule.t)
  : DoseSchedule.t :=
  DoseSchedule.mk (DoseSchedule.id s) (DoseSchedule.medicineId s)
    (DoseSchedule.scheduledTime s) true (Some now) (DoseSchedule.skipped s)
    TakenLate (DoseSchedule.snoozeUntil s) (DoseSchedule.notes s).

(** [prev.map(s => s.id === scheduleId ? f(s) : s)] *)
Definition update_where (scheduleId : string)
           (f : DoseSchedule.t -> DoseSchedule.t)
           (prev : list DoseSchedule.t) : list DoseSchedule.t :=
  map (fun s => if String.eqb (DoseSchedule.id s) scheduleId then f s else s)
      prev.

(** [schedules.find(s => s.id === scheduleId)] *)
Definition find_schedule (scheduleId : string) (l : list DoseSchedule.t)
  : option DoseSchedule.t :=
  find (fun s => String.eqb (DoseSchedule.id s) scheduleId) l.

(** [medicines.find(m => m.id === medicineId)] *)
Definition find_medicine (medicineId : string) (l : list Medicine.t)
  : option Medicine.t :=
  find (fun m => String.eqb (Medicine.id m) medicineId) l.

Definition markDoseTaken (now : Date) (env : InventoryService.RefillEnv)
           (scheduleId : string) (st : State) : State :=
  match find_schedule scheduleId (schedules st) with
  | None => st
  | Some schedule =>
      let schedules' := update_where scheduleId (set_taken now) (schedules st) in
      let medicines' :=
        InventoryService.updateStock (DoseSchedule.medicineId schedule)
          (medicines st) true in
      let refillOrders' :=
        match find_medicine (DoseSchedule.medicineId schedule) (medicines st) with
        | Some medicine =>
            match InventoryService.autoRefillIfNeeded env medicine with
            | Some refillOrder => refillOrders st ++ [refillOrder]
            | None => refillOrders st
            end
        | None => refillOrders st
        end in
      mkState medicines' schedules' refillOrders'
  end.

(** [markDoseTaken] called through a callback of an earlier render:
    [schedules.find] and [medicines.find] read the lists of that render
    ([captured]), and the three updaters run on the state of the moment
    ([current]).  [markDoseTaken] above is the case of a callback of the
    latest render. *)
Definition markDoseTaken_stale (now : Date) (env : InventoryService.RefillEnv)
           (scheduleId : string) (captured current : State) : State :=
  match find_schedule scheduleId (schedules captured) with
  | None => current
  | Some schedule =>
      let schedules' :=
        update_where scheduleId (set_taken now) (schedules current) in
      let medicines' :=
        InventoryService.updateStock (DoseSchedule.medicineId schedule)
          (medicines current) true in
      let refillOrders' :=
        match find_medicine (DoseSchedule.medicineId schedule)
                            (medicines captured) with
        | Some medicine =>
            match InventoryService.autoRefillIfNeeded env medicine with
            | Some refillOrder => refillOrders current ++ [refillOrder]
            | None => refillOrders current
            end
        | None => refillOrders current
        end in
      mkState medicines' schedules' refillOrders'
  end.

Definition skipDose (scheduleId : string) (reason : option string)
           (st : State) : State :=
  mkState (medicines st)
          (update_where scheduleId (set_missed reason) (schedules st))
          (refillOrders st).

Definition snoozeDose (zone : Zone) (now : Date) (scheduleId : string)
           (st : State) : State :=
  let snoozeUntil := setMinutes zone now (getMinutes zone now + 30) in
  mkState (medicines st)
          (update_where scheduleId (set_snoozed snoozeUntil) (schedules st))
          (refillOrders st).

Definition markTakenLate (now : Date) (scheduleId : string) (st : State)
  : State :=
  let schedules' :=
    update_where scheduleId (set_taken_late now) (schedules st) in
  match find_schedule scheduleId (schedules st) with
  | Some schedule =>
      mkState (InventoryService.updateStock
                 (DoseSchedule.medicineId schedule) (medicines st) true)
              schedules' (refillOrders st)
  | None => mkState (medicines st) schedules' (refillOrders st)
  end.

(** One user action on the dashboard, with the clock and draws it reads. *)
Inductive Action :=
| MarkDoseTaken (now : Date) (env : InventoryService.RefillEnv)
                (scheduleId : string)
| SkipDose (scheduleId : string) (reason : option string)
| SnoozeDose (zone : Zone) (now : Date) (scheduleId : string)
| MarkTakenLate (now : Date) (scheduleId : string).

Definition step (st : State) (a : Action) : State :=
  match a with
  | MarkDoseTaken now env i => markDoseTaken now env i st
  | SkipDose i reason => skipDose i reason st
  | SnoozeDose zone now i => snoozeDose zone now i st
  | MarkTakenLate now i => markTakenLate now i st
  end.

Definition run (st : State) (actions : list Action) : State :=
  fold_left step actions st.

(** The status enum and its two mirror flags agree. *)
Definition flags_consistent (s : DoseSchedule.t) : bool :=
  (Bool.eqb (DoseSchedule.taken s)
            (DoseStatus_eqb (DoseSchedule.status s) Taken
             || DoseStatus_eqb (DoseSchedule.status s) TakenLate)
   && Bool.eqb (DoseSchedule.skipped s)
               (DoseStatus_eqb (DoseSchedule.status s) Missed))%bool.

End useMedicineData.

(* ================================================================= *)
(** ** services/voiceService.ts *)

Module VoiceService.

Record t := mk {
  currentLanguage : Language;
  medicines : list Medicine.t;
  schedules : list DoseSchedule.t
}.

Definition updateMedicineData (self : t) (medicines : list Medicine.t)
           (schedules : list DoseSchedule.t) : t :=
  mk (currentLanguage self) medicines schedules.

Definition setLanguage (self : t) (language : Language) : t :=
  mk language (medicines self) (schedules self).

Definition identifyIntent (query : string) : string :=
  let lowerQuery := toLowerCase query in
  (* English intents *)
  if (includes lowerQuery "did i take" || includes lowerQuery "taken"
      || includes lowerQuery "have i taken")%bool then "check_intake"
  else if (includes lowerQuery "next" && includes lowerQuery "medicine")%bool
  then "next_dose"
  else if (includes lowerQuery "stock" || includes lowerQuery "running low"
           || includes lowerQuery "refill")%bool then "check_stock"
  else if (includes lowerQuery "schedule" || includes lowerQuery "when")%bool
  then "schedule_query"
  (* Hindi intents *)
  else if (includes lowerQuery "दवा ली" || includes lowerQuery "खाई")%bool
  then "check_intake"
  else if (includes lowerQuery "अगली दवा" || includes lowerQuery "कब लेनी")%bool
  then "next_dose"
  else if (includes lowerQuery "स्टॉक" || includes lowerQuery "खत्म")%bool
  then "check_stock"
  (* Kannada intents *)
  else if (includes lowerQuery "ಔಷಧಿ ತೆಗೆದುಕೊಂಡೆ" || includes lowerQuery "ಸೇವಿಸಿದೆ")%bool
  then "check_intake"
  else if (includes lowerQuery "ಮುಂದಿನ ಔಷಧಿ" || includes lowerQuery "ಯಾವಾಗ")%bool
  then "next_dose"
  else if (includes lowerQuery "ಸ್ಟಾಕ್" || includes lowerQuery "ಮುಗಿಯುತ್ತಿದೆ")%bool
  then "check_stock"
  else "general_query".

(** [xs.filter(Boolean)] on names that may be [undefined]: the missing
    and the empty names are dropped. *)
Fixpoint filter_Boolean (xs : list (option string)) : list string :=
  match xs with
  | [] => []
  | None :: r => filter_Boolean r
  | Some n :: r => if String.eqb n "" then filter_Boolean r
                   else n :: filter_Boolean r
  end.

(** [ss.map(s => this.medicines.find(m => m.id === s.medicineId)?.name)
       .filter(Boolean)] *)
Definition names_of (self : t) (ss : list DoseSchedule.t) : list string :=
  filter_Boolean
    (map (fun s =>
            option_map Medicine.name
              (find (fun m => String.eqb (Medicine.id m)
                                         (DoseSchedule.medicineId s))
                    (medicines self)))
         ss).

(** [`${xs.length}`] *)
Definition length_text {A} (xs : list A) : string :=
  Z_toString (Z.of_nat (List.length xs)).

Definition nonempty {A} (xs : list A) : bool :=
  (0 <? Z.of_nat (List.length xs)).

Definition generateIntakeResponse (takenMedicines pendingMedicines : list string)
           (language : Language) : string :=
  match language with
  | en =>
      ((if nonempty takenMedicines
        then "Yes, you have taken: " ++ join ", " takenMedicines ++ "."
        else "You haven't taken any medicines yet today.")
       ++
       (if nonempty pendingMedicines
        then " You still need to take: " ++ join ", " pendingMedicines ++ "."
        else " You have taken all your scheduled medicines for today."))%string
  | hi =>
      ((if nonempty takenMedicines
        then "हाँ, आपने ली हैं: " ++ join ", " takenMedicines ++ "।"
        else "आपने आज अभी तक कोई दवा नहीं ली है।")
       ++
       (if nonempty pendingMedicines
        then " आपको अभी भी लेनी हैं: " ++ join ", " pendingMedicines ++ "।"
        else " आपने आज की सभी निर्धारित दवाइयाँ ले ली हैं।"))%string
  | kn =>
      ((if nonempty takenMedicines
        then "ಹೌದು, ನೀವು ತೆಗೆದುಕೊಂಡಿದ್ದೀರಿ: " ++ join ", " takenMedicines ++ "।"
        else "ನೀವು ಇಂದು ಇನ್ನೂ ಯಾವುದೇ ಔಷಧಿ ತೆಗೆದುಕೊಂಡಿಲ್ಲ।")
       ++
       (if nonempty pendingMedicines
        then " ನೀವು ಇನ್ನೂ ತೆಗೆದುಕೊಳ್ಳಬೇಕು: " ++ join ", " pendingMedicines ++ "।"
        else " ನೀವು ಇಂದಿನ ಎಲ್ಲಾ ನಿಗದಿತ ಔಷಧಿಗಳನ್ನು ತೆಗೆದುಕೊಂಡಿದ್ದೀರಿ।"))%string
  end.

(** The double quote character of the English help text. *)
Definition dq : string := String (ascii_of_nat 34) EmptyString.

(** [responses[language]['general_query']] *)
Definition general_query (language : Language) : string :=
  match language with
  | en =>
      ("I can help you with medicine reminders, stock checks, and schedules. Try asking "
       ++ dq ++ "Have I taken my medicine?" ++ dq ++ " or "
       ++ dq ++ "What medicines are running low?" ++ dq)%string
  | hi => "मैं दवा रिमाइंडर, स्टॉक चेक और शेड्यूल में आपकी मदद कर सकता हूँ।"
  | kn => "ನಾನು ಔಷಧಿ ರಿಮೈಂಡರ್, ಸ್ಟಾಕ್ ಚೆಕ್ ಮತ್ತು ಶೆಡ್ಯೂಲ್‌ನಲ್ಲಿ ನಿಮಗೆ ಸಹಾಯ ಮಾಡಬಹುದು।"
  end.

(** [responses[language][intent]]; [None] is [undefined], for a key the
    table does not have. *)
Definition responses (language : Language)
           (todaySchedules : list DoseSchedule.t)
           (takenMedicines pendingMedicines lowStockMedicines : list string)
           (intent : string) : option string :=
  match language with
  | en =>
      if String.eqb intent "check_intake" then
        Some (generateIntakeResponse takenMedicines pendingMedicines en)
      else if String.eqb intent "next_dose" then
        Some (if nonempty pendingMedicines
              then "Your next medicines to take are: "
                   ++ join ", " pendingMedicines
              else "You have no pending medicines for today.")%string
      else if String.eqb intent "check_stock" then
        Some (if nonempty lowStockMedicines
              then "These medicines are running low: "
                   ++ join ", " lowStockMedicines
                   ++ ". I can help you order refills."
              else "All your medicines have adequate stock.")%string
      else if String.eqb intent "schedule_query" then
        Some ("You have " ++ length_text todaySchedules
              ++ " medicines scheduled for today. "
              ++ length_text takenMedicines ++ " taken, "
              ++ length_text pendingMedicines ++ " pending.")%string
      else if String.eqb intent "general_query" then
        Some (general_query en)
      else None
  | hi =>
      if String.eqb intent "check_intake" then
        Some (generateIntakeResponse takenMedicines pendingMedicines hi)
      else if String.eqb intent "next_dose" then
        Some (if nonempty pendingMedicines
              then "आपकी अगली दवाइयाँ हैं: " ++ join ", " pendingMedicines
              else "आज आपकी कोई दवा बाकी नहीं है।")%string
      else if String.eqb intent "check_stock" then
        Some (if nonempty lowStockMedicines
              then "ये दवाइयाँ कम हो रही हैं: "
                   ++ join ", " lowStockMedicines
                   ++ "। मैं रिफिल ऑर्डर करने में मदद कर सकता हूँ।"
              else "आपकी सभी दवाइयों का स्टॉक पर्याप्त है।")%string
      else if String.eqb intent "schedule_query" then
        Some ("आज आपकी " ++ length_text todaySchedules
              ++ " दवाइयाँ निर्धारित हैं। "
              ++ length_text takenMedicines ++ " ली गई, "
              ++ length_text pendingMedicines ++ " बाकी।")%string
      else if String.eqb intent "general_query" then
        Some (general_query hi)
      else None
  | kn =>
      if String.eqb intent "check_intake" then
        Some (generateIntakeResponse takenMedicines pendingMedicines kn)
      else if String.eqb intent "next_dose" then
        Some (if nonempty pendingMedicines
              then "ನಿಮ್ಮ ಮುಂದಿನ ಔಷಧಿಗಳು: " ++ join ", " pendingMedicines
              else "ಇಂದು ನಿಮಗೆ ಯಾವುದೇ ಔಷಧಿ ಬಾಕಿ ಇಲ್ಲ।")%string
      else if String.eqb intent "check_stock" then
        Some (if nonempty lowStockMedicines
              then "ಈ ಔಷಧಿಗಳು ಕಡಿಮೆಯಾಗುತ್ತಿವೆ: "
                   ++ join ", " lowStockMedicines
                   ++ "। ನಾನು ರೀಫಿಲ್ ಆರ್ಡರ್ ಮಾಡಲು ಸಹಾಯ ಮಾಡಬಹುದು।"
              else "ನಿಮ್ಮ ಎಲ್ಲಾ ಔಷಧಿಗಳ ಸ್ಟಾಕ್ ಸಾಕಾಗಿದೆ।")%string
      else if String.eqb intent "schedule_query" then
        Some ("ಇಂದು ನಿಮಗೆ " ++ length_text todaySchedules
              ++ " ಔಷಧಿಗಳು ನಿಗದಿಪಡಿಸಲಾಗಿದೆ। "
              ++ length_text takenMedicines ++ " ತೆಗೆದುಕೊಂಡಿದ್ದೀರಿ, "
              ++ length_text pendingMedicines ++ " ಬಾಕಿ ಇದೆ।")%string
      else if String.eqb intent "general_query" then
        Some (general_query kn)
      else None
  end.

(** [a || b] on a string [a] that may be [undefined]. *)
Definition or_else (a : option string) (b : string) : string :=
  match a with
  | Some r => if String.eqb r "" then b else r
  | None => b
  end.

(** The four lists [generateResponse] computes first; [today] is the
    value of [new Date()]. *)
Definition todaySchedules (tz : Z) (today : Date) (self : t)
  : list DoseSchedule.t :=
  filter (fun s => sameDateString tz (DoseSchedule.scheduledTime s) today)
         (schedules self).

Definition takenMedicines (tz : Z) (today : Date) (self : t) : list string :=
  names_of self
    (filter (fun s => DoseStatus_eqb (DoseSchedule.status s) Taken)
            (todaySchedules tz today self)).

Definition pendingMedicines (tz : Z) (today : Date) (self : t) : list string :=
  names_of self
    (filter (fun s => DoseStatus_eqb (DoseSchedule.status s) Pending)
            (todaySchedules tz today self)).

Definition lowStockMedicines (self : t) : list string :=
  map Medicine.name
    (filter (fun m => Medicine.remainingQuantity m
                      <=? Medicine.criticalThreshold m)
            (medicines self)).

Definition generateResponse (tz : Z) (today : Date) (self : t)
           (intent query : string) : string :=
  let table :=
    responses (currentLanguage self) (todaySchedules tz today self)
              (takenMedicines tz today self) (pendingMedicines tz today self)
              (lowStockMedicines self) in
  or_else (table intent) (general_query (currentLanguage self)).

(** [now] is the clock value read for the id, the timestamp and
    [generateResponse]. *)
Definition processQuery (tz : Z) (now : Date) (self : t) (query : string)
  : VoiceQuery.t :=
  let intent := identifyIntent query in
  let response := generateResponse tz now self intent query in
  VoiceQuery.mk (Z_toString now) query (currentLanguage self)
                intent response now.

End VoiceService.

(* ================================================================= *)
(** ** services/blynkService.ts *)

Module BlynkService.

(** The JSON bodies the sensor pins answer with: [null], a number, or an
    array of numbers (strings and objects are not modelled). *)
Inductive json := JNull | JNum (n : Z) | JArr (xs : list Z).

(** The promise returned by [makeRequest]: rejected (network error or a
    status that is not ok), or resolved with the parsed body. *)
Inductive promise := Rejected | Resolved (body : json).

(** What the seven requests of one poll do. *)
Record Requests := {
  V0 : promise; V1 : promise; V2 : promise; V3 : promise;
  V4 : promise; V5 : promise; V6 : promise
}.

(** One set of random draws, as the expressions of the source use
    them. *)
Record Draws := {
  pill : Z;        (* Math.floor(Math.random() * 50) *)
  battery : Z;     (* Math.floor(Math.random() * 40) *)
  temp : Z;        (* Math.floor(Math.random() * 10) *)
  humid : Z;       (* Math.floor(Math.random() * 20) *)
  motion : bool;   (* Math.random() > 0.5 *)
  age : Z          (* Math.random() * 3600000, to the millisecond *)
}.

(** [p.catch(() => fallback)] *)
Definition catch (p : promise) (fallback : json) : json :=
  match p with
  | Rejected => fallback
  | Resolved body => body
  end.

(** [body[0]]: a TypeError on [null] (outer [None]), [undefined] on a
    number or an empty array (inner [None]). *)
Definition index0 (body : json) : option (option Z) :=
  match body with
  | JNull => None
  | JNum _ => Some None
  | JArr xs => Some (hd_error xs)
  end.

(** [v || d] on a number that may be [undefined]. *)
Definition or_number (v : option Z) (d : Z) : Z :=
  match v with
  | Some n => if Z.eqb n 0 then d else n
  | None => d
  end.

(** [Boolean(v)] *)
Definition Boolean (v : option Z) : bool :=
  match v with
  | Some n => negb (Z.eqb n 0)
  | None => false
  end.

(** The snapshot of the [catch] block. *)
Definition offlineData (now : Z) (d : Draws) : BlynkData.t :=
  BlynkData.mk (pill d + 10) (battery d + 60) (temp d + 20) (humid d + 40)
               0 (motion d) (now - age d) false.

(** Returns the snapshot and the new value of [this.isConnected].
    [perChannel] are the draws of the seven [.catch] handlers, [offline]
    those of the outer [catch] block. *)
Definition fetchAllSensorData (now : Z) (perChannel offline : Draws)
           (r : Requests) : BlynkData.t * bool :=
  let pillCount := catch (V0 r) (JArr [pill perChannel + 10]) in
  let batteryLevel := catch (V1 r) (JArr [battery perChannel + 60]) in
  let temperature := catch (V2 r) (JArr [temp perChannel + 20]) in
  let humidity := catch (V3 r) (JArr [humid perChannel + 40]) in
  let dispenserStatus := catch (V4 r) (JArr [0]) in
  let motionSensor :=
    catch (V5 r) (JArr [if motion perChannel then 1 else 0]) in
  let lastDispensed := catch (V6 r) (JArr [now - age perChannel]) in
  match index0 pillCount, index0 batteryLevel, index0 temperature,
        index0 humidity, index0 dispenserStatus, index0 motionSensor,
        index0 lastDispensed with
  | Some p, Some b, Some t, Some h, Some d, Some m, Some l =>
      (BlynkData.mk (or_number p 0) (or_number b 0) (or_number t 0)
                    (or_number h 0) (or_number d 0) (Boolean m)
                    (or_number l now) true,
       true)
  | _, _, _, _, _, _, _ => (offlineData now offline, false)
  end.

(** [this.activities.unshift(activity)], then the cut to 50. *)
Definition addActivity (activity : HardwareActivity.t)
           (activities : list HardwareActivity.t)
  : list HardwareActivity.t :=
  let activities := activity :: activities in
  if (50 <? List.length activities)%nat then firstn 50 activities
  else activities.

(** The log after the given insertions, first to last, on a fresh
    service ([activities = []]). *)
Definition log_after (inserted : list HardwareActivity.t)
  : list HardwareActivity.t :=
  fold_left (fun log a => addActivity a log) inserted [].

(** The fields of the service object.  A listener is a callback; it is
    known by its identity (a number here), which is what [!==] compares. *)
Record t := mkService {
  isConnected : bool;
  lastData : option BlynkData.t;
  activities : list HardwareActivity.t;
  listeners : list nat
}.

(** The state of a new service object. *)
Definition initial : t := mkService false None [] [].

Definition with_activities (self : t) (a : list HardwareActivity.t) : t :=
  mkService (isConnected self) (lastData self) a (listeners self).

(** A call of a listener with a snapshot. *)
Definition Call := (nat * BlynkData.t)%type.

(** [this.listeners.forEach(listener => listener(data))]: the calls made,
    in order (a listener that subscribes or unsubscribes while it is
    called is not modelled). *)
Definition notifyListeners (data : BlynkData.t) (self : t) : list Call :=
  map (fun listener => (listener, data)) (listeners self).

(** [subscribe(callback)]: the new state and the calls made.  The
    function it returns is [unsubscribe callback]. *)
Definition subscribe (callback : nat) (self : t) : t * list Call :=
  let self' :=
    mkService (isConnected self) (lastData self) (activities self)
              (listeners self ++ [callback]) in
  match lastData self with
  | Some data => (self', [(callback, data)])
  | None => (self', [])
  end.

Definition unsubscribe (callback : nat) (self : t) : t :=
  mkService (isConnected self) (lastData self) (activities self)
            (filter (fun listener => negb (Nat.eqb listener callback))
                    (listeners self)).

(** One tick of the timer of [startPolling]. *)
Definition poll (now : Z) (perChannel offline : Draws) (r : Requests)
           (self : t) : t * list Call :=
  let '(data, connected) := fetchAllSensorData now perChannel offline r in
  let self' :=
    mkService connected (Some data) (activities self) (listeners self) in
  (self', notifyListeners data self').

(** [dispensePill]: [v10] and [v11] are what the requests to
    [update/V10] and [update/V11] do, [atId] and [atTimestamp] the clock
    reads of the activity that is logged.  The result is the returned
    flag, the endpoints requested before the function returns, and the
    new state. *)
Definition dispensePill (atId atTimestamp : Date) (v10 v11 : promise)
           (medicineId : string) (self : t) : bool * list string * t :=
  let failed :=
    HardwareActivity.mk (Z_toString atId) Dispense
      ("Failed to dispense pill for medicine " ++ medicineId)%string
      atTimestamp false in
  match v10 with
  | Rejected =>
      (false, ["update/V10"],
       with_activities self (addActivity failed (activities self)))
  | Resolved _ =>
      match v11 with
      | Rejected =>
          (false, ["update/V10"; "update/V11"],
           with_activities self (addActivity failed (activities self)))
      | Resolved _ =>
          (true, ["update/V10"; "update/V11"],
           with_activities self
             (addActivity
                (HardwareActivity.mk (Z_toString atId) Dispense
                   ("Pill dispensed for medicine " ++ medicineId)%string
                   atTimestamp true)
                (activities self)))
      end
  end.

Inductive NotificationType := reminder | alert | success.

(** [`${type}`] *)
Definition NotificationType_text (type : NotificationType) : string :=
  match type with
  | reminder => "reminder"
  | alert => "alert"
  | success => "success"
  end.

Definition notificationCode (type : NotificationType) : Z :=
  match type with
  | reminder => 1
  | alert => 2
  | success => 3
  end.

(** [sendNotification]: [v20] is what the request to [update/V20] does. *)
Definition sendNotification (atId atTimestamp : Date) (v20 : promise)
           (type : NotificationType) (message : string) (self : t)
  : bool * t :=
  match v20 with
  | Resolved _ =>
      (true,
       with_activities self
         (addActivity
            (HardwareActivity.mk (Z_toString atId) Notification
               ("Sent " ++ NotificationType_text type ++ ": " ++ message)%string
               atTimestamp true)
            (activities self)))
  | Rejected => (false, self)
  end.

(** [getActivities]: a copy of the log. *)
Definition getActivities (self : t) : list HardwareActivity.t :=
  activities self.

Definition getCurrentData (self : t) : option BlynkData.t := lastData self.

Definition isDeviceConnected (self : t) : bool := isConnected self.

(** [testConnection]: [v0] is what the request to [get/V0] does. *)
Definition testConnection (v0 : promise) (self : t) : bool * t :=
  match v0 with
  | Resolved _ =>
      (true, mkService true (lastData self) (activities self) (listeners self))
  | Rejected =>
      (false, mkService false (lastData self) (activities self) (listeners self))
  end.

(** The operations on the service that change its activity log. *)
Inductive LogAction :=
| DispensePill (atId atTimestamp : Date) (v10 v11 : promise)
               (medicineId : string)
| SendNotification (atId atTimestamp : Date) (v20 : promise)
                   (type : NotificationType) (message : string).

Definition log_step (self : t) (a : LogAction) : t :=
  match a with
  | DispensePill atId atTimestamp v10 v11 medicineId =>
      snd (dispensePill atId atTimestamp v10 v11 medicineId self)
  | SendNotification atId atTimestamp v20 type message =>
      snd (sendNotification atId atTimestamp v20 type message self)
  end.

End BlynkService.

(* ================================================================= *)
(** ** components/StockDashboard.tsx *)

Module StockDashboard.

Definition criticalStock (medicines : list Medicine.t) : list Medicine.t :=
  filter (fun m => InventoryService.StockLevel_eqb
                     (InventoryService.checkStockLevel m)
                     InventoryService.critical)
         medicines.

Definition lowStock (medicines : list Medicine.t) : list Medicine.t :=
  filter (fun m => InventoryService.StockLevel_eqb
                     (InventoryService.checkStockLevel m)
                     InventoryService.low)
         medicines.

Definition adequateStock (medicines : list Medicine.t) : list Medicine.t :=
  filter (fun m => InventoryService.StockLevel_eqb
                     (InventoryService.checkStockLevel m)
                     InventoryService.adequate)
         medicines.

End StockDashboard.

(** The [Dashboard] component of the same file. *)
Module Dashboard.

(** [today] is the clock read when the component rendered. *)
Definition todaySchedules (tz : Z) (today : Date)
           (schedules : list DoseSchedule.t) : list DoseSchedule.t :=
  filter (fun s => sameDateString tz (DoseSchedule.scheduledTime s) today)
         schedules.

(** [handleDispenseFromHardware]: the hardware is asked to dispense, and
    on success the first pending dose of the medicine today is marked
    taken through the hook.  The handler belongs to one render:
    [todaySchedules] and [onMarkTaken] are those of the state [captured]
    of that render.  It waits for [dispensePill] with the buttons
    enabled, so the state may have moved on when it goes on: [current]
    is the state the updaters of [onMarkTaken] then run on, and [hw] the
    service when the activity is logged. *)
Definition handleDispenseFromHardware
           (tz : Z) (today : Date)
           (atId atTimestamp : Date) (v10 v11 : BlynkService.promise)
           (now : Date) (env : InventoryService.RefillEnv)
           (medicineId : string)
           (captured current : useMedicineData.State) (hw : BlynkService.t)
  : useMedicineData.State * BlynkService.t :=
  let '(success, _, hw') :=
    BlynkService.dispensePill atId atTimestamp v10 v11 medicineId hw in
  if success then
    match find (fun s => (String.eqb (DoseSchedule.medicineId s) medicineId
                          && DoseStatus_eqb (DoseSchedule.status s) Pending)%bool)
               (todaySchedules tz today (useMedicineData.schedules captured)) with
    | Some schedule =>
        (useMedicineData.markDoseTaken_stale now env (DoseSchedule.id schedule)
                                             captured current,
         hw')
    | None => (current, hw')
    end
  else (current, hw').

End Dashboard.

(* ================================================================= *)
(** ** components/ShoppingCartDashboard.tsx *)

Module ShoppingCartDashboard.

Record CartItem := mkItem {
  medicine : OneMgApiService.OneMgMedicine;
  quantity : Z;
  originalMedicine : option Medicine.t
}.

Definition with_quantity (item : CartItem) (q : Z) : CartItem :=
  mkItem (medicine item) q (originalMedicine item).

Definition item_id (item : CartItem) : string :=
  OneMgApiService.id (medicine item).

(** [loadCriticalMedicines]: the cart that is set for the critical
    medicines (the [null] entries, of the medicines the catalogue does
    not find, are filtered out). *)
Fixpoint loadCriticalMedicines (criticalMedicines : list Medicine.t)
  : list CartItem :=
  match criticalMedicines with
  | [] => []
  | medicine :: rest =>
      match OneMgApiService.searchMedicine (Medicine.name medicine) with
      | first :: _ =>
          mkItem first (Medicine.totalQuantity medicine) (Some medicine)
          :: loadCriticalMedicines rest
      | [] => loadCriticalMedicines rest
      end
  end.

Definition addToCart (medicine : OneMgApiService.OneMgMedicine)
           (quantity : Z) (cartItems : list CartItem) : list CartItem :=
  match find (fun item => String.eqb (item_id item)
                                      (OneMgApiService.id medicine))
             cartItems with
  | Some _ =>
      map (fun item =>
             if String.eqb (item_id item) (OneMgApiService.id medicine)
             then with_quantity item (ShoppingCartDashboard.quantity item + quantity)
             else item)
          cartItems
  | None => cartItems ++ [mkItem medicine quantity None]
  end.

Definition removeFromCart (medicineId : string) (cartItems : list CartItem)
  : list CartItem :=
  filter (fun item => negb (String.eqb (item_id item) medicineId)) cartItems.

Definition updateQuantity (medicineId : string) (newQuantity : Z)
           (cartItems : list CartItem) : list CartItem :=
  if newQuantity <=? 0 then removeFromCart medicineId cartItems
  else map (fun item =>
              if String.eqb (item_id item) medicineId
              then with_quantity item newQuantity
              else item)
           cartItems.

(** The item count shown in the order summary:
    [cartItems.reduce((sum, item) => sum + item.quantity, 0)]. *)
Definition itemCount (cartItems : list CartItem) : Z :=
  fold_left (fun sum item => sum + quantity item) cartItems 0.

End ShoppingCartDashboard.

(* ================================================================= *)
(** ** Vocabulary of the statements *)

(** A medicine with the given stock figures (the other fields play no
    part in the stock functions). *)
Definition stock_of (remaining threshold frequency : Z) : Medicine.t :=
  Medicine.mk "m" "Medicine" "1mg" frequency 100 remaining threshold
              "Dr. A" 0 None "" None None.

(** [0 <= remainingQuantity] *)
Definition nonneg_stock (m : Medicine.t) : Prop :=
  0 <= Medicine.remainingQuantity m.

Module Lifecycle.
Import useMedicineData.

(** The schedule id an action is called with. *)
Definition target (a : Action) : string :=
  match a with
  | MarkDoseTaken _ _ i => i
  | SkipDose i _ => i
  | SnoozeDose _ _ i => i
  | MarkTakenLate _ i => i
  end.

(** The object spread an action applies to the schedules of its id. *)
Definition transition (a : Action) : DoseSchedule.t -> DoseSchedule.t :=
  match a with
  | MarkDoseTaken now _ _ => set_taken now
  | SkipDose _ reason => set_missed reason
  | SnoozeDose zone now _ =>
      set_snoozed (setMinutes zone now (getMinutes zone now + 30))
  | MarkTakenLate now _ => set_taken_late now
  end.

(** The dose an action completes: the schedule that [markDoseTaken] and
    [markTakenLate] look up, none for the other two. *)
Definition completed_dose (st : State) (a : Action) : option DoseSchedule.t :=
  match a with
  | MarkDoseTaken _ _ i => find_schedule i (schedules st)
  | MarkTakenLate _ i => find_schedule i (schedules st)
  | SkipDose _ _ => None
  | SnoozeDose _ _ _ => None
  end.

(** The statuses from which an action leaves the flags in agreement with
    the status: taking a dose from any status but [missed], skipping
    from any status but [taken] and [taken_late], snoozing from
    [pending] and [snoozed]. *)
Definition allowed_from (a : Action) (status : DoseStatus) : bool :=
  match a, status with
  | (MarkDoseTaken _ _ _ | MarkTakenLate _ _), Missed => false
  | (MarkDoseTaken _ _ _ | MarkTakenLate _ _), _ => true
  | SkipDose _ _, (Taken | TakenLate) => false
  | SkipDose _ _, _ => true
  | SnoozeDose _ _ _, (Pending | Snoozed) => true
  | SnoozeDose _ _ _, _ => false
  end.

Definition is_markDoseTaken (a : Action) : bool :=
  match a with
  | MarkDoseTaken _ _ _ => true
  | _ => false
  end.

(** What the operations never change: of a schedule, of a medicine. *)
Definition schedule_key (s : DoseSchedule.t) : string * string * Date :=
  (DoseSchedule.id s, DoseSchedule.medicineId s, DoseSchedule.scheduledTime s).

Definition with_stock (m : Medicine.t) (q : Z) : Medicine.t :=
  Medicine.with_remainingQuantity m q.

Definition prescription (m : Medicine.t) : Medicine.t := with_stock m 0.

(** The alerts on the stock, as opposed to those on the expiry. *)
Definition is_stock_alert (a : InventoryService.Alert) : bool :=
  negb (InventoryService.AlertType_eqb (InventoryService.type a)
                                       InventoryService.expiring_alert).

Definition is_expiring_alert (a : InventoryService.Alert) : bool :=
  InventoryService.AlertType_eqb (InventoryService.type a)
                                 InventoryService.expiring_alert.

Definition not_adequate (m : Medicine.t) : bool :=
  negb (InventoryService.StockLevel_eqb (InventoryService.checkStockLevel m)
                                        InventoryService.adequate).

(** [critical] below [low] below [adequate]. *)
Definition rank (level : InventoryService.StockLevel) : Z :=
  match level with
  | InventoryService.critical => 0
  | InventoryService.low => 1
  | InventoryService.adequate => 2
  end.

(** New York in 2024: five hours west of Greenwich, four from 10 March
    07:00 UTC to 3 November 06:00 UTC. *)
Definition new_york_2024 : Zone :=
  mkZone (-18000000)
         [ (1710054000000, -14400000); (1730613600000, -18000000) ].

(** A zone whose offset [o] drops by [d] at the instant [change], as at
    the end of daylight saving. *)
Definition falling_back (o d change : Z) : Zone :=
  mkZone o [ (change, o - d) ].

(** An environment of [markDoseTaken] for the examples. *)
Definition env0 : InventoryService.RefillEnv :=
  {| InventoryService.available := true;
     InventoryService.orderClock :=
       {| OneMgApiService.atOrderId := 1000;
          OneMgApiService.atDelivery := 1000;
          OneMgApiService.atTracking := 1000 |};
     InventoryService.atId := 1001;
     InventoryService.atOrderDate := 1001 |}.

End Lifecycle.

Module Voice.
Import VoiceService.

Definition still_need_query : string :=
  "What medicines do I still need to take?".

(** A service in English whose schedules for the day of [0] are two taken
    doses and one pending dose. *)
Definition still_need_service : VoiceService.t :=
  VoiceService.mk en
    [ Medicine.mk "a" "Aspirin" "75mg" 1 30 20 5 "Dr. A" 0 None "" None None;
      Medicine.mk "b" "Biotin" "5mg" 1 30 20 5 "Dr. A" 0 None "" None None;
      Medicine.mk "c" "Calcium" "500mg" 1 30 20 5 "Dr. A" 0 None "" None None ]
    [ DoseSchedule.mk "1" "a" 1000 true (Some 2000) false Taken None None;
      DoseSchedule.mk "2" "b" 3000 true (Some 4000) false Taken None None;
      DoseSchedule.mk "3" "c" 5000 false None false Pending None None ].

(** The sentence of [next_dose] when nothing is pending. *)
Definition no_pending_sentence (language : Language) : string :=
  match language with
  | en => "You have no pending medicines for today."
  | hi => "आज आपकी कोई दवा बाकी नहीं है।"
  | kn => "ಇಂದು ನಿಮಗೆ ಯಾವುದೇ ಔಷಧಿ ಬಾಕಿ ಇಲ್ಲ।"
  end.


(** The five intents. *)
Definition intents : list string :=
  [ "check_intake"; "next_dose"; "check_stock"; "schedule_query";
    "general_query" ].


End Voice.

Module Cart.
Import ShoppingCartDashboard.

Definition positive_quantity (item : CartItem) : Prop := 0 < quantity item.

(** The item of the cart for a catalogue id. *)
Definition find_item (medicineId : string) (cartItems : list CartItem)
  : option CartItem :=
  find (fun item => String.eqb (item_id item) medicineId) cartItems.

End Cart.

Module Telemetry.
Import BlynkService.

(** Every one of the seven requests fails. *)
Definition all_rejected : Requests :=
  {| V0 := Rejected; V1 := Rejected; V2 := Rejected; V3 := Rejected;
     V4 := Rejected; V5 := Rejected; V6 := Rejected |}.

Definition rejected (p : promise) : bool :=
  match p with Rejected => true | Resolved _ => false end.

(** The request answered, with the body [null]. *)
Definition null_body (p : promise) : bool :=
  match p with Resolved JNull => true | _ => false end.

Definition some_rejected (r : Requests) : bool :=
  (rejected (V0 r) || rejected (V1 r) || rejected (V2 r) || rejected (V3 r)
   || rejected (V4 r) || rejected (V5 r) || rejected (V6 r))%bool.

Definition some_null_body (r : Requests) : bool :=
  (null_body (V0 r) || null_body (V1 r) || null_body (V2 r)
   || null_body (V3 r) || null_body (V4 r) || null_body (V5 r)
   || null_body (V6 r))%bool.

(** What [body[0]] reads on a channel that is caught with the fallback
    [[fallback]], when it reads at all. *)
Definition reading (p : promise) (fallback : Z) : option Z :=
  match index0 (catch p (JArr [fallback])) with
  | Some v => v
  | None => None
  end.

(** Draws within the ranges of the expressions that produce them. *)
Definition in_range (d : Draws) : Prop :=
  0 <= pill d < 50 /\ 0 <= battery d < 40 /\ 0 <= temp d < 10 /\
  0 <= humid d < 20 /\ 0 <= age d < 3600000.

Definition draws0 : Draws :=
  {| pill := 7; battery := 11; temp := 3; humid := 5; motion := true;
     age := 1000 |}.

(** The activity logged by the [i]-th successful dispense of a test. *)
Definition numbered (i : nat) : HardwareActivity.t :=
  HardwareActivity.mk (Z_toString (Z.of_nat i)) Dispense
                      "Pill dispensed for medicine test-medicine"
                      (Z.of_nat i) true.

(** [subscribe] for each callback in turn; the calls made are dropped. *)
Definition subscribe_all (callbacks : list nat) (self : BlynkService.t)
  : BlynkService.t :=
  fold_left (fun s callback => fst (subscribe callback s)) callbacks self.

(** The calls a listener receives. *)
Definition calls_of (callback : nat) (calls : list Call) : list Call :=
  filter (fun c => Nat.eqb (fst c) callback) calls.

End Telemetry.

(* ================================================================= *)
(** * Properties *)

(** ** Stock classification and days remaining *)

Section InventoryFacts.
Import InventoryService.

(** C3. For every medicine the stock level is [critical] exactly when
    [remaining <= threshold], [low] exactly when
    [threshold < remaining <= 2 * threshold], and [adequate] exactly
    when neither holds. *)
Theorem checkStockLevel_classification :
  forall medicine : Medicine.t,
    let remaining := Medicine.remainingQuantity medicine in
    let threshold := Medicine.criticalThreshold medicine in
    (checkStockLevel medicine = critical <-> remaining <= threshold) /\
    (checkStockLevel medicine = low <->
       threshold < remaining <= 2 * threshold) /\
    (checkStockLevel medicine = adequate <->
       ~ remaining <= threshold /\
       ~ threshold < remaining <= 2 * threshold).
Proof.
  intros medicine remaining threshold. unfold checkStockLevel.
  fold remaining threshold.
  destruct (Z.leb_spec remaining threshold) as [Hc | Hc];
    [ | destruct (Z.leb_spec remaining (threshold * 2)) as [Hl | Hl] ];
    repeat split; intros; try discriminate; try lia.
Qed.

(** C4. [calculateDaysRemaining] is 0 when the frequency is 0, and the
    floor of [remaining / frequency] otherwise (stated by the bounds
    that define the floor, for either sign of the frequency); it is a
    total function, so no input faults.  The two examples
    (8 tablets at 2 a day, and at 0 a day) are included. *)
Theorem calculateDaysRemaining_floor :
  (forall medicine : Medicine.t,
     let remaining := Medicine.remainingQuantity medicine in
     let frequency := Medicine.frequency medicine in
     let days := calculateDaysRemaining medicine in
     (frequency = 0 /\ days = 0) \/
     (0 < frequency /\
      frequency * days <= remaining < frequency * days + frequency) \/
     (frequency < 0 /\
      frequency * days + frequency < remaining <= frequency * days)) /\
  calculateDaysRemaining (stock_of 8 10 2) = 4 /\
  calculateDaysRemaining (stock_of 8 10 0) = 0.
Proof.
  split; [ | split; reflexivity ].
  intros medicine remaining frequency days.
  unfold days, calculateDaysRemaining. fold remaining frequency.
  destruct (Z.eqb_spec frequency 0) as [E | NE].
  - left. split; [ exact E | reflexivity ].
  - right.
    assert (Hdm := Z.div_mod remaining frequency NE).
    destruct (Z.lt_trichotomy frequency 0) as [Hneg | [H0 | Hpos]];
      [ right | contradiction | left ].
    + assert (Hr := Z.mod_neg_bound remaining frequency Hneg). lia.
    + assert (Hr := Z.mod_pos_bound remaining frequency Hpos). lia.
Qed.

(** The medicine [updateStock] puts in the place of [m]. *)
Lemma updateStock_nth_error :
  forall medicineId medicines j,
    nth_error (updateStock medicineId medicines true) j =
    option_map
      (fun m =>
         if String.eqb (Medicine.id m) medicineId
         then Medicine.with_remainingQuantity m
                (Z.max 0 (Medicine.remainingQuantity m - 1))
         else m)
      (nth_error medicines j).
Proof.
  intros medicineId medicines j. unfold updateStock.
  rewrite nth_error_map.
  destruct (nth_error medicines j) as [m | ]; [ simpl | reflexivity ].
  rewrite Bool.andb_true_r. reflexivity.
Qed.

Lemma updateStock_nonneg :
  forall medicineId medicines taken,
    Forall nonneg_stock medicines ->
    Forall nonneg_stock (updateStock medicineId medicines taken).
Proof.
  intros medicineId medicines taken H. unfold updateStock.
  apply Forall_map. eapply Forall_impl; [ | exact H ].
  intros m Hm. unfold nonneg_stock in *.
  destruct (String.eqb (Medicine.id m) medicineId && taken)%bool;
    [ simpl; lia | exact Hm ].
Qed.

End InventoryFacts.

(* ================================================================= *)
(** ** The dose lifecycle of the hook *)

Section LifecycleFacts.
Import useMedicineData Lifecycle.

Lemma find_schedule_update_where :
  forall scheduleId f l,
    (forall s, DoseSchedule.id (f s) = DoseSchedule.id s) ->
    find_schedule scheduleId (update_where scheduleId f l) =
    option_map f (find_schedule scheduleId l).
Proof.
  intros scheduleId f l Hid. unfold find_schedule, update_where.
  induction l as [ | s l IH ]; [ reflexivity | ].
  simpl. destruct (String.eqb (DoseSchedule.id s) scheduleId) eqn:E.
  - rewrite Hid, E. reflexivity.
  - rewrite E. exact IH.
Qed.

Lemma find_schedule_absent :
  forall scheduleId l,
    ~ In scheduleId (map DoseSchedule.id l) ->
    find_schedule scheduleId l = None.
Proof.
  intros scheduleId l. unfold find_schedule.
  induction l as [ | s l IH ]; intros Hnot; [ reflexivity | ].
  simpl in *. destruct (String.eqb_spec (DoseSchedule.id s) scheduleId) as [E | NE].
  - exfalso. apply Hnot. left. exact E.
  - apply IH. intros Hin. apply Hnot. right. exact Hin.
Qed.

Lemma update_where_absent :
  forall scheduleId f l,
    ~ In scheduleId (map DoseSchedule.id l) ->
    update_where scheduleId f l = l.
Proof.
  intros scheduleId f l. unfold update_where.
  induction l as [ | s l IH ]; intros Hnot; [ reflexivity | ].
  simpl in *. destruct (String.eqb_spec (DoseSchedule.id s) scheduleId) as [E | NE].
  - exfalso. apply Hnot. left. exact E.
  - f_equal. apply IH. intros Hin. apply Hnot. right. exact Hin.
Qed.

(** What one action does to the two lists: the schedules of its id get
    its object spread, and the stock of the completed dose, if any, is
    updated. *)
Lemma step_schedules :
  forall st a,
    schedules (step st a) = update_where (target a) (transition a) (schedules st)
    \/ (schedules (step st a) = schedules st /\
        ~ In (target a) (map DoseSchedule.id (schedules st)) /\
        step st a = st).
Proof.
  intros st a. destruct a as [ now env i | i reason | tz now i | now i ]; simpl.
  - unfold markDoseTaken.
    destruct (find_schedule i (schedules st)) as [ schedule | ] eqn:F.
    + left. reflexivity.
    + right. split; [ reflexivity | split; [ | reflexivity ] ].
      intros Hin. unfold find_schedule in F.
      apply in_map_iff in Hin. destruct Hin as [ s [ Hs Hin ] ].
      apply (find_none _ _ F) in Hin. rewrite Hs, String.eqb_refl in Hin.
      discriminate.
  - left. reflexivity.
  - left. reflexivity.
  - left. unfold markTakenLate.
    destruct (find_schedule i (schedules st)); reflexivity.
Qed.

Lemma step_medicines :
  forall st a,
    medicines (step st a) =
    match completed_dose st a with
    | Some schedule =>
        InventoryService.updateStock (DoseSchedule.medicineId schedule)
                                     (medicines st) true
    | None => medicines st
    end.
Proof.
  intros st a. destruct a as [ now env i | i reason | tz now i | now i ]; simpl;
    try reflexivity.
  - unfold markDoseTaken. destruct (find_schedule i (schedules st)); reflexivity.
  - unfold markTakenLate. destruct (find_schedule i (schedules st)); reflexivity.
Qed.

(** C2. For every schedule id that [markDoseTaken] finds (whatever the
    status of the schedule, [pending] in particular), the schedule found
    under that id afterwards has status [taken], the completion time
    [now] and the same medicine; every medicine keeps its place and its
    id, and its remaining quantity is [max 0 (remaining - 1)] when its
    id is the medicine id of the schedule, and unchanged otherwise. *)
Theorem markDoseTaken_marks_and_decrements :
  forall now env scheduleId st schedule,
    find_schedule scheduleId (schedules st) = Some schedule ->
    let st' := markDoseTaken now env scheduleId st in
    (exists schedule',
       find_schedule scheduleId (schedules st') = Some schedule' /\
       DoseSchedule.status schedule' = Taken /\
       DoseSchedule.takenAt schedule' = Some now /\
       DoseSchedule.taken schedule' = true /\
       DoseSchedule.medicineId schedule' = DoseSchedule.medicineId schedule) /\
    (forall j m,
       nth_error (medicines st) j = Some m ->
       exists m',
         nth_error (medicines st') j = Some m' /\
         Medicine.id m' = Medicine.id m /\
         Medicine.remainingQuantity m' =
           if String.eqb (Medicine.id m) (DoseSchedule.medicineId schedule)
           then Z.max 0 (Medicine.remainingQuantity m - 1)
           else Medicine.remainingQuantity m).
Proof.
  intros now env scheduleId st schedule Hfind st'.
  unfold st', markDoseTaken. rewrite Hfind. simpl. split.
  - exists (set_taken now schedule).
    rewrite find_schedule_update_where by reflexivity.
    rewrite Hfind. repeat split.
  - intros j m Hm. rewrite updateStock_nth_error, Hm. simpl.
    destruct (String.eqb (Medicine.id m) (DoseSchedule.medicineId schedule));
      eexists; repeat split.
Qed.

(** The second dose of the sample data is pending; taking it brings the
    stock of its medicine from 8 to 7. *)
Lemma markDoseTaken_marks_and_decrements_witness :
  let st := initialState 0 0 in
  let st' := markDoseTaken 5000 env0 "2" st in
  option_map DoseSchedule.status (find_schedule "2" (schedules st)) = Some Pending /\
  option_map DoseSchedule.status (find_schedule "2" (schedules st')) = Some Taken /\
  (exists m', nth_error (medicines st') 0 = Some m' /\
              Medicine.remainingQuantity m' = 7).
Proof.
  intros st st'.
  destruct (markDoseTaken_marks_and_decrements 5000 env0 "2" st
              (DoseSchedule.mk "2" "1" 72000000 false None false Pending None None)
              eq_refl) as [ [ s' [ Hs' [ Hstatus _ ] ] ] Hstock ].
  split; [ reflexivity | split ].
  - fold st'. unfold st' in *. rewrite Hs'. simpl. rewrite Hstatus. reflexivity.
  - destruct (Hstock 0%nat _ eq_refl) as [ m' [ Hm' [ _ Hq ] ] ].
    exists m'. split; [ exact Hm' | exact Hq ].
Defined.

(** The local time [setMinutes] hands to [UTC]: the local time moved by
    the difference of the minutes. *)
Lemma setMinutes_local :
  forall t m,
    MakeDate (Day t) (MakeTime (HourFromTime t) m (SecFromTime t) (msFromTime t))
    = t + (m - MinFromTime t) * 60000.
Proof.
  intros t m.
  unfold MakeDate, MakeTime, Day, HourFromTime, MinFromTime, SecFromTime,
    msFromTime.
  Z.to_euclidean_division_equations. lia.
Qed.

Lemma snooze_local :
  forall zone now,
    setMinutes zone now (getMinutes zone now + 30)
    = UTC zone (LocalTime zone now + 1800000).
Proof.
  intros zone now. unfold setMinutes, getMinutes. cbv zeta.
  rewrite setMinutes_local. f_equal. lia.
Qed.

(** In a zone whose offset never changes the snooze ends exactly 30
    minutes after the call. *)
Lemma snooze_fixed_zone :
  forall tz now,
    setMinutes (fixed tz) now (getMinutes (fixed tz) now + 30)
    = now + 30 * 60 * 1000.
Proof.
  intros tz now. rewrite snooze_local.
  unfold UTC, possibleInstants, LocalTime, offsetAt, fixed. simpl. lia.
Qed.

(** Around a drop of the offset by [d]: the half hour before the change
    is followed by a local time that comes only after the change, [d]
    later; and within [d] less half an hour after the change the local
    time half an hour on has come before, and [setMinutes] takes its
    first coming. *)
Lemma snooze_falling_back :
  forall o d change now,
    0 < d ->
    setMinutes (falling_back o d change) now
               (getMinutes (falling_back o d change) now + 30)
    = if now <? change - 1800000 then now + 1800000
      else if now <? change then now + 1800000 + d
      else if now <? change + d - 1800000 then now + 1800000 - d
      else now + 1800000.
Proof.
  intros o d change now Hd. rewrite snooze_local.
  unfold UTC, possibleInstants, LocalTime, offsetAt, falling_back.
  cbn [base changes offset_from possibleInstants_from skippedOffset_from app].
  destruct (Z.ltb_spec now (change - 1800000));
    destruct (Z.ltb_spec now change);
    destruct (Z.ltb_spec now (change + d - 1800000));
    try lia;
    repeat match goal with
           | |- context [ ?a <? ?b ] => destruct (Z.ltb_spec a b)
           | |- context [ ?a <=? ?b ] => destruct (Z.leb_spec a b)
           end;
    cbn [andb app]; lia.
Qed.

(** C6 (the code does otherwise).  [snoozeDose] sets the status
    [snoozed] and leaves the medicines as they are, but its
    [snoozeUntil] is [setMinutes(getMinutes() + 30)], which works on the
    local minutes: in a zone whose offset drops by [d] at some instant
    (the end of daylight saving, [d] an hour), a snooze in the half hour
    before the change ends [30 min + d] after the call, and a snooze
    after the change, up to [d - 30 min] after it, ends [d - 30 min]
    before the call; at every other time it ends 30 minutes after the
    call. *)
Theorem snoozeDose_across_offset_change :
  forall o d change now scheduleId st schedule,
    0 < d ->
    find_schedule scheduleId (schedules st) = Some schedule ->
    let st' := snoozeDose (falling_back o d change) now scheduleId st in
    (exists schedule',
       find_schedule scheduleId (schedules st') = Some schedule' /\
       DoseSchedule.status schedule' = Snoozed /\
       DoseSchedule.snoozeUntil schedule' =
         Some (if now <? change - 1800000 then now + 1800000
               else if now <? change then now + 1800000 + d
               else if now <? change + d - 1800000 then now + 1800000 - d
               else now + 1800000)) /\
    medicines st' = medicines st.
Proof.
  intros o d change now scheduleId st schedule Hd Hfind st'.
  unfold st', snoozeDose. cbv zeta. rewrite (snooze_falling_back o d change now Hd).
  split; [ | reflexivity ].
  eexists. cbn [schedules].
  rewrite find_schedule_update_where by reflexivity.
  rewrite Hfind. repeat split.
Qed.

(** New York on 3 November 2024, the clocks going back at 06:00 UTC.
    The second dose of the sample data is snoozed at 05:40 UTC (01:40
    local, summer time): the snooze ends at 07:10 UTC (02:10 local,
    winter time), an hour and a half later. *)
Lemma snoozeDose_across_offset_change_witness :
  let st := initialState (-14400000) 1730612400000 in
  let st' := snoozeDose (falling_back (-14400000) 3600000 1730613600000)
                        1730612400000 "2" st in
  (exists schedule',
     find_schedule "2" (schedules st') = Some schedule' /\
     DoseSchedule.status schedule' = Snoozed /\
     DoseSchedule.snoozeUntil schedule' = Some (1730612400000 + 5400000)) /\
  medicines st' = medicines st.
Proof.
  intros st st'.
  assert (Hd : 0 < 3600000) by reflexivity.
  exact (snoozeDose_across_offset_change (-14400000) 3600000 1730613600000
           1730612400000 "2" st
           (DoseSchedule.mk "2" "1" 1730678400000 false None false Pending None None)
           Hd eq_refl).
Defined.

(** The same day in the zone with both changes of 2024: the snooze of
    05:40 UTC ends 90 minutes later, the snooze of 06:10 UTC (01:10
    local, winter time) ends at 05:40 UTC, 30 minutes before the call;
    on 10 March, when the clocks go forward, the snooze of 06:40 UTC
    ends 30 minutes later. *)
Lemma snoozeDose_new_york :
  let snoozeUntil now :=
    option_map DoseSchedule.snoozeUntil
      (find_schedule "2"
         (schedules (snoozeDose new_york_2024 now "2"
                                (initialState (-14400000) now)))) in
  snoozeUntil 1730612400000 = Some (Some (1730612400000 + 90 * 60 * 1000)) /\
  snoozeUntil 1730614200000 = Some (Some (1730614200000 - 30 * 60 * 1000)) /\
  snoozeUntil 1710052800000 = Some (Some (1710052800000 + 30 * 60 * 1000)).
Proof.
  repeat split; vm_compute; reflexivity.
Qed.

(** In a zone of fixed offset, for every schedule id that is present,
    the schedule found under that id after [snoozeDose] has status
    [snoozed] and a [snoozeUntil] of exactly 30 minutes (1 800 000 ms)
    after the time of the call, and the list of medicines is
    unchanged. *)
Lemma snoozeDose_fixed_zone :
  forall tz now scheduleId st schedule,
    find_schedule scheduleId (schedules st) = Some schedule ->
    let st' := snoozeDose (fixed tz) now scheduleId st in
    (exists schedule',
       find_schedule scheduleId (schedules st') = Some schedule' /\
       DoseSchedule.status schedule' = Snoozed /\
       DoseSchedule.snoozeUntil schedule' = Some (now + 30 * 60 * 1000)) /\
    medicines st' = medicines st.
Proof.
  intros tz now scheduleId st schedule Hfind st'.
  unfold st', snoozeDose. cbv zeta. rewrite snooze_fixed_zone.
  split; [ | reflexivity ].
  eexists. cbn [schedules].
  rewrite find_schedule_update_where by reflexivity.
  rewrite Hfind. repeat split.
Qed.

(** C9. For every schedule id that no schedule has, each of the four
    operations returns the state it was given: the schedules, the
    medicines and the refill orders are unchanged (the operations are
    total functions, nothing is thrown). *)
Theorem absent_schedule_is_noop :
  forall zone now env reason scheduleId st,
    ~ In scheduleId (map DoseSchedule.id (schedules st)) ->
    markDoseTaken now env scheduleId st = st /\
    skipDose scheduleId reason st = st /\
    snoozeDose zone now scheduleId st = st /\
    markTakenLate now scheduleId st = st.
Proof.
  intros zone now env reason scheduleId st Habsent.
  assert (F := find_schedule_absent _ _ Habsent).
  unfold markDoseTaken, skipDose, snoozeDose, markTakenLate.
  rewrite F, !update_where_absent by exact Habsent.
  destruct st; repeat split.
Qed.

(** No schedule of the sample data has the id 9. *)
Lemma absent_schedule_is_noop_witness :
  let st := initialState 0 0 in
  markDoseTaken 5000 env0 "9" st = st /\
  skipDose "9" (Some "away") st = st /\
  snoozeDose (fixed 0) 5000 "9" st = st /\
  markTakenLate 5000 "9" st = st.
Proof.
  intros st.
  apply (absent_schedule_is_noop (fixed 0) 5000 env0 (Some "away") "9" st).
  simpl. intros [ H | [ H | [ H | [ H | [] ] ] ] ]; discriminate H.
Defined.

Lemma step_nonneg :
  forall st a,
    Forall nonneg_stock (medicines st) ->
    Forall nonneg_stock (medicines (step st a)).
Proof.
  intros st a H. rewrite step_medicines.
  destruct (completed_dose st a); [ apply updateStock_nonneg | ]; exact H.
Qed.

Lemma run_nonneg :
  forall actions st,
    Forall nonneg_stock (medicines st) ->
    Forall nonneg_stock (medicines (run st actions)).
Proof.
  unfold run. induction actions as [ | a actions IH ]; intros st H;
    [ exact H | ].
  simpl. apply IH. apply step_nonneg. exact H.
Qed.

(** C10. From a state in which every remaining quantity is at least 0,
    every sequence of the four operations leads to a state in which
    every remaining quantity is at least 0.  And in one operation every
    medicine keeps its place; it is replaced by itself with the quantity
    [max 0 (remaining - 1)] when the operation completes a dose (the
    schedule that [markDoseTaken] or [markTakenLate] finds) whose
    medicine id is its id, and is unchanged in every other case. *)
Theorem remainingQuantity_stays_nonnegative :
  forall st actions,
    Forall nonneg_stock (medicines st) ->
    Forall nonneg_stock (medicines (run st actions)) /\
    (forall st0 a j m,
       nth_error (medicines st0) j = Some m ->
       nth_error (medicines (step st0 a)) j =
       Some (match completed_dose st0 a with
             | Some schedule =>
                 if String.eqb (Medicine.id m) (DoseSchedule.medicineId schedule)
                 then Medicine.with_remainingQuantity m
                        (Z.max 0 (Medicine.remainingQuantity m - 1))
                 else m
             | None => m
             end)).
Proof.
  intros st actions H. split; [ apply run_nonneg; exact H | ].
  intros st0 a j m Hm. rewrite step_medicines.
  destruct (completed_dose st0 a) as [ schedule | ]; [ | exact Hm ].
  rewrite updateStock_nth_error, Hm. reflexivity.
Qed.

(** Nine doses of the first sample medicine (stock 8) taken in a row, a
    skip and a snooze in between: the stock ends at 0, not below. *)
Lemma remainingQuantity_stays_nonnegative_witness :
  let st := initialState 0 0 in
  let actions :=
    [ MarkDoseTaken 1 env0 "2"; MarkTakenLate 2 "2"; SkipDose "3" None;
      MarkDoseTaken 3 env0 "1"; MarkDoseTaken 4 env0 "1";
      SnoozeDose (fixed 0) 5 "4"; MarkTakenLate 6 "1"; MarkTakenLate 7 "2";
      MarkDoseTaken 8 env0 "2"; MarkDoseTaken 9 env0 "2";
      MarkDoseTaken 10 env0 "1" ] in
  Forall nonneg_stock (medicines (run st actions)) /\
  map Medicine.remainingQuantity (medicines (run st actions)) = [0; 4; 15].
Proof.
  intros st actions. split; [ | reflexivity ].
  apply (remainingQuantity_stays_nonnegative st actions).
  unfold nonneg_stock. simpl. repeat constructor; discriminate.
Defined.

(** The flags of a schedule after the object spread of an action, from
    flags that agree with the status. *)
Lemma transition_flags :
  forall a s,
    flags_consistent s = true ->
    flags_consistent (transition a s) = allowed_from a (DoseSchedule.status s).
Proof.
  intros a s. unfold flags_consistent.
  destruct s as [ i mid time taken takenAt skipped status snooze notes ].
  destruct a, status, taken, skipped; simpl; intro H;
    first [ reflexivity | discriminate H ].
Qed.

Lemma step_preserves_flags :
  forall st a,
    Forall (fun s => flags_consistent s = true) (schedules st) ->
    Forall (fun s => DoseSchedule.id s = target a ->
                     allowed_from a (DoseSchedule.status s) = true)
           (schedules st) ->
    Forall (fun s => flags_consistent s = true) (schedules (step st a)).
Proof.
  intros st a Hflags Hallowed.
  destruct (step_schedules st a) as [ E | [ E _ ] ]; rewrite E;
    [ | exact Hflags ].
  unfold update_where. apply Forall_map.
  rewrite Forall_forall in *. intros s Hin.
  destruct (String.eqb_spec (DoseSchedule.id s) (target a)) as [ Hid | Hid ].
  - rewrite transition_flags by (apply Hflags; exact Hin).
    apply Hallowed; assumption.
  - apply Hflags. exact Hin.
Qed.

(** The taken dose of the sample data, skipped: [taken] stays true under
    the status [missed]. *)
Lemma skipDose_breaks_flags :
  let st := initialState 0 0 in
  forallb flags_consistent (schedules st) = true /\
  forallb flags_consistent (schedules (skipDose "1" None st)) = false /\
  option_map (fun s => (DoseSchedule.taken s, DoseSchedule.status s))
             (find_schedule "1" (schedules (skipDose "1" None st)))
  = Some (true, Missed).
Proof.
  repeat split.
Qed.

(** C5, amended.  When the flags of every schedule agree with its
    status, and every schedule of the id of the action has a status the
    action is allowed from (not [missed] for [markDoseTaken] and
    [markTakenLate], not [taken] or [taken_late] for [skipDose],
    [pending] or [snoozed] for [snoozeDose]), the flags of every
    schedule agree with its status after the action. *)
Theorem step_keeps_flags_consistent :
  forall st a,
    Forall (fun s => flags_consistent s = true) (schedules st) ->
    Forall (fun s => DoseSchedule.id s = target a ->
                     allowed_from a (DoseSchedule.status s) = true)
           (schedules st) ->
    Forall (fun s => flags_consistent s = true) (schedules (step st a)).
Proof.
  intros st a Hflags Hallowed. apply step_preserves_flags; assumption.
Qed.

(** Skipping the pending second dose of the sample data. *)
Lemma step_keeps_flags_consistent_witness :
  Forall (fun s => flags_consistent s = true)
         (schedules (step (initialState 0 0) (SkipDose "2" (Some "nausea")))).
Proof.
  apply step_keeps_flags_consistent.
  - repeat constructor.
  - repeat constructor; simpl; intro H; first [ reflexivity | discriminate H ].
Defined.

End LifecycleFacts.

(* ================================================================= *)
(** ** The hardware service *)

Section TelemetryFacts.
Import BlynkService Telemetry.

(** What [body[0]] gives on a request that is caught with a one-element
    array: a fault only when the request answered [null]. *)
Lemma index0_catch :
  forall p x,
    (null_body p = true /\ index0 (catch p (JArr [x])) = None) \/
    (null_body p = false /\ exists v, index0 (catch p (JArr [x])) = Some v).
Proof.
  intros p x. destruct p as [ | [ | n | xs ] ]; simpl.
  - right. split; [ reflexivity | eexists; reflexivity ].
  - left. split; reflexivity.
  - right. split; [ reflexivity | eexists; reflexivity ].
  - right. split; [ reflexivity | eexists; reflexivity ].
Qed.

Lemma fetchAllSensorData_connected :
  forall now perChannel offline r,
    fetchAllSensorData now perChannel offline r =
    (fst (fetchAllSensorData now perChannel offline r),
     negb (some_null_body r)) /\
    BlynkData.connected (fst (fetchAllSensorData now perChannel offline r)) =
    negb (some_null_body r) /\
    (some_null_body r = true ->
     fst (fetchAllSensorData now perChannel offline r) = offlineData now offline).
Proof.
  intros now perChannel offline r.
  unfold fetchAllSensorData, some_null_body.
  destruct (index0_catch (V0 r) (pill perChannel + 10)) as [ [ N0 E0 ] | [ N0 [ v0 E0 ] ] ];
  destruct (index0_catch (V1 r) (battery perChannel + 60)) as [ [ N1 E1 ] | [ N1 [ v1 E1 ] ] ];
  destruct (index0_catch (V2 r) (temp perChannel + 20)) as [ [ N2 E2 ] | [ N2 [ v2 E2 ] ] ];
  destruct (index0_catch (V3 r) (humid perChannel + 40)) as [ [ N3 E3 ] | [ N3 [ v3 E3 ] ] ];
  destruct (index0_catch (V4 r) 0) as [ [ N4 E4 ] | [ N4 [ v4 E4 ] ] ];
  destruct (index0_catch (V5 r) (if motion perChannel then 1 else 0))
    as [ [ N5 E5 ] | [ N5 [ v5 E5 ] ] ];
  destruct (index0_catch (V6 r) (now - age perChannel)) as [ [ N6 E6 ] | [ N6 [ v6 E6 ] ] ];
  rewrite ?E0, ?E1, ?E2, ?E3, ?E4, ?E5, ?E6, N0, N1, N2, N3, N4, N5, N6;
  simpl; repeat split; intro H; discriminate H.
Qed.

(** C7 (the code does otherwise).  Whatever requests fail, the snapshot
    has [connected = true] and the service is marked connected, as long
    as no request answered [null]: a failed request is replaced by its
    fallback array inside [Promise.all], so nothing reaches the [catch]
    block that sets [connected: false]. *)
Theorem fetchAllSensorData_connected_despite_failures :
  forall now perChannel offline r,
    some_null_body r = false ->
    BlynkData.connected (fst (fetchAllSensorData now perChannel offline r)) = true /\
    snd (fetchAllSensorData now perChannel offline r) = true.
Proof.
  intros now perChannel offline r Hnull.
  destruct (fetchAllSensorData_connected now perChannel offline r)
    as [ Hpair [ Hconn _ ] ].
  rewrite Hconn. rewrite Hpair. simpl. rewrite Hnull. split; reflexivity.
Qed.

(** All seven requests fail, and the snapshot says connected. *)
Lemma fetchAllSensorData_connected_despite_failures_witness :
  some_rejected all_rejected = true /\
  BlynkData.connected (fst (fetchAllSensorData 5000000 draws0 draws0 all_rejected)) = true /\
  snd (fetchAllSensorData 5000000 draws0 draws0 all_rejected) = true.
Proof.
  split; [ reflexivity | ].
  apply (fetchAllSensorData_connected_despite_failures
           5000000 draws0 draws0 all_rejected).
  reflexivity.
Defined.

Lemma log_after_snoc :
  forall inserted a,
    log_after (inserted ++ [a]) = addActivity a (log_after inserted).
Proof.
  intros inserted a. unfold log_after. rewrite fold_left_app. reflexivity.
Qed.

Lemma addActivity_firstn :
  forall a log,
    addActivity a log = firstn 50 (a :: log).
Proof.
  intros a log. unfold addActivity.
  destruct (Nat.ltb_spec 50 (List.length (a :: log))) as [ Hlt | Hle ].
  - reflexivity.
  - symmetry. apply firstn_all2. exact Hle.
Qed.

Lemma log_after_firstn_rev :
  forall inserted, log_after inserted = firstn 50 (rev inserted).
Proof.
  induction inserted as [ | a inserted IH ] using rev_ind.
  - reflexivity.
  - rewrite log_after_snoc, addActivity_firstn, IH, rev_unit.
    change 50%nat with (S 49). rewrite !firstn_cons.
    rewrite firstn_firstn. reflexivity.
Qed.

(** C8. After any sequence of insertions into the log of a new service,
    the log has at most 50 entries and is the 50 latest insertions,
    newest first; one more insertion puts the new entry in front of the
    first 49 entries, and so, on a log of 50, drops exactly the oldest
    entry (the last one). *)
Theorem activity_log_capped :
  forall inserted : list HardwareActivity.t,
    (List.length (log_after inserted) <= 50)%nat /\
    log_after inserted = firstn 50 (rev inserted) /\
    (forall a,
       log_after (inserted ++ [a]) = a :: firstn 49 (log_after inserted)) /\
    (forall oldest a,
       List.length inserted = 49%nat ->
       log_after (oldest :: inserted ++ [a]) = a :: rev inserted).
Proof.
  intros inserted. split; [ | split; [ | split ] ].
  - rewrite log_after_firstn_rev. apply firstn_le_length.
  - apply log_after_firstn_rev.
  - intros a. rewrite !log_after_firstn_rev, rev_unit.
    change 50%nat with (S 49). rewrite firstn_cons, firstn_firstn.
    reflexivity.
  - intros oldest a Hlen.
    change (oldest :: inserted ++ [a]) with ((oldest :: inserted) ++ [a]).
    rewrite log_after_firstn_rev, rev_unit. simpl rev.
    change 50%nat with (S 49). rewrite firstn_cons. f_equal.
    rewrite firstn_app, firstn_all2 by (rewrite length_rev; lia).
    rewrite length_rev, Hlen, Nat.sub_diag. simpl. apply app_nil_r.
Qed.

(** Fifty-one insertions: the first one is gone, the other fifty are
    there, newest first. *)
Lemma activity_log_capped_witness :
  let middle := map numbered (seq 1 49) in
  log_after (numbered 0 :: middle ++ [numbered 50]) =
  numbered 50 :: rev middle.
Proof.
  intros middle.
  destruct (activity_log_capped middle) as [ _ [ _ [ _ Hevict ] ] ].
  apply Hevict. reflexivity.
Defined.

End TelemetryFacts.

(* ================================================================= *)
(** ** The voice responder *)

Section VoiceFacts.
Import VoiceService Voice.

Lemma append_assoc :
  forall a b c : string, ((a ++ b) ++ c = a ++ (b ++ c))%string.
Proof.
  induction a as [ | x a IH ]; intros b c; simpl;
    [ reflexivity | rewrite IH; reflexivity ].
Qed.

Lemma prefix_app :
  forall a s : string,
    String.prefix a s = true <-> exists post, s = (a ++ post)%string.
Proof.
  induction a as [ | x a IH ]; intros s.
  - split; [ intros _; exists s; reflexivity | intros _; destruct s; reflexivity ].
  - destruct s as [ | y s ]; simpl.
    + split; [ discriminate | intros [ post H ]; discriminate H ].
    + destruct (ascii_dec x y) as [ E | NE ].
      * subst y. rewrite IH. split; intros [ post H ]; exists post.
        -- rewrite H. reflexivity.
        -- injection H as H. exact H.
      * split; [ discriminate | ].
        intros [ post H ]. injection H as H1 H2. subst. contradiction.
Qed.

(** [includes] is the substring relation. *)
Lemma includes_spec :
  forall s sub : string,
    includes s sub = true <->
    exists pre post, s = (pre ++ sub ++ post)%string.
Proof.
  induction s as [ | c s IH ]; intros sub.
  - change (includes "" sub) with (String.prefix sub "" || false)%bool.
    rewrite Bool.orb_false_r, prefix_app. split.
    + intros [ post H ]. exists EmptyString, post. exact H.
    + intros [ pre [ post H ] ]. destruct pre; [ | discriminate H ].
      exists post. exact H.
  - change (includes (String c s) sub)
      with (String.prefix sub (String c s) || includes s sub)%bool.
    rewrite Bool.orb_true_iff, prefix_app, IH. split.
    + intros [ [ post H ] | [ pre [ post H ] ] ].
      * exists EmptyString, post. exact H.
      * exists (String c pre), post. simpl. rewrite H. reflexivity.
    + intros [ pre [ post H ] ]. destruct pre as [ | x pre ].
      * left. exists post. exact H.
      * right. simpl in H. injection H as _ H. exists pre, post. exact H.
Qed.

Lemma includes_trans :
  forall s a b : string,
    includes a b = true -> includes s a = true -> includes s b = true.
Proof.
  intros s a b Hab Hsa. rewrite includes_spec in *.
  destruct Hab as [ p1 [ q1 H1 ] ]. destruct Hsa as [ p2 [ q2 H2 ] ].
  exists (p2 ++ p1)%string, (q1 ++ q2)%string.
  rewrite H2, H1, !append_assoc. reflexivity.
Qed.

Lemma or_else_nonempty :
  forall a b, b <> "" -> or_else a b <> "".
Proof.
  intros a b Hb. unfold or_else. destruct a as [ r | ]; [ | exact Hb ].
  destruct (String.eqb_spec r ""); assumption.
Qed.

Lemma general_query_nonempty :
  forall language, general_query language <> "".
Proof.
  intros language. destruct language; discriminate.
Qed.

Lemma filter_Boolean_length :
  forall xs, (List.length (filter_Boolean xs) <= List.length xs)%nat.
Proof.
  induction xs as [ | [ n | ] xs IH ]; simpl; [ lia | | lia ].
  destruct (String.eqb n ""); simpl; lia.
Qed.

Lemma names_of_length :
  forall self ss, (List.length (names_of self ss) <= List.length ss)%nat.
Proof.
  intros self ss. unfold names_of.
  etransitivity; [ apply filter_Boolean_length | ].
  rewrite length_map. reflexivity.
Qed.

Lemma filter_disjoint_length :
  forall (A : Type) (p q : A -> bool) (l : list A),
    (forall x, p x = true -> q x = false) ->
    (List.length (filter p l) + List.length (filter q l) <= List.length l)%nat.
Proof.
  intros A p q l Hpq. induction l as [ | x l IH ]; simpl; [ lia | ].
  destruct (p x) eqn:P.
  - rewrite (Hpq x P). simpl. lia.
  - destruct (q x); simpl; lia.
Qed.

(** C1 (the code does otherwise).  The query has none of the English
    keywords ([next] is missing), so for every state of the service its
    intent is [general_query] and its response is the general help text
    of the current language.  At the state of the example (two taken
    doses, one pending, English) the response generator
    does give the one pending name when it is given [next_dose]; the
    classifier is what differs. *)
Theorem still_need_query_is_general :
  (forall tz now self,
     VoiceQuery.intent (processQuery tz now self still_need_query)
     = "general_query" /\
     VoiceQuery.response (processQuery tz now self still_need_query)
     = general_query (currentLanguage self)) /\
  takenMedicines 0 0 still_need_service = [ "Aspirin"; "Biotin" ] /\
  pendingMedicines 0 0 still_need_service = [ "Calcium" ] /\
  generateResponse 0 0 still_need_service "next_dose" still_need_query
  = "Your next medicines to take are: Calcium" /\
  VoiceQuery.response (processQuery 0 0 still_need_service still_need_query)
  <> "Your next medicines to take are: Calcium".
Proof.
  assert (I : identifyIntent still_need_query = "general_query")
    by (vm_compute; reflexivity).
  split; [ | repeat split; vm_compute; discriminate ].
  intros tz now self. unfold processQuery. simpl. rewrite I.
  split; [ reflexivity | ].
  unfold generateResponse. destruct (currentLanguage self); reflexivity.
Qed.

End VoiceFacts.

(* ================================================================= *)
(** ** More on the dose lifecycle *)

Section LifecycleMore.
Import useMedicineData Lifecycle InventoryService.

Lemma find_map_preserving :
  forall (A : Type) (p : A -> bool) (f : A -> A) (l : list A),
    (forall x, p (f x) = p x) ->
    find p (map f l) = option_map f (find p l).
Proof.
  intros A p f l Hp. induction l as [ | x l IH ]; [ reflexivity | ].
  simpl. rewrite Hp. destruct (p x); [ reflexivity | exact IH ].
Qed.

Lemma find_medicine_updateStock :
  forall medicineId stocked medicines,
    find_medicine medicineId (updateStock stocked medicines true) =
    option_map
      (fun m =>
         if String.eqb (Medicine.id m) stocked
         then Medicine.with_remainingQuantity m
                (Z.max 0 (Medicine.remainingQuantity m - 1))
         else m)
      (find_medicine medicineId medicines).
Proof.
  intros medicineId stocked medicines. unfold find_medicine, updateStock.
  rewrite find_map_preserving.
  - destruct (find _ medicines) as [ m | ]; [ simpl | reflexivity ].
    rewrite Bool.andb_true_r. reflexivity.
  - intros m. destruct (String.eqb (Medicine.id m) stocked && true)%bool;
      reflexivity.
Qed.

Lemma update_where_keys :
  forall scheduleId f l,
    (forall s, schedule_key (f s) = schedule_key s) ->
    map schedule_key (update_where scheduleId f l) = map schedule_key l.
Proof.
  intros scheduleId f l Hf. unfold update_where. rewrite map_map.
  apply map_ext. intros s.
  destruct (String.eqb (DoseSchedule.id s) scheduleId);
    [ apply Hf | reflexivity ].
Qed.

Lemma updateStock_prescription :
  forall medicineId medicines taken,
    map prescription (updateStock medicineId medicines taken) =
    map prescription medicines.
Proof.
  intros medicineId medicines taken. unfold updateStock. rewrite map_map.
  apply map_ext. intros m.
  destruct (String.eqb (Medicine.id m) medicineId && taken)%bool; reflexivity.
Qed.

Lemma step_keys :
  forall st a,
    map schedule_key (schedules (step st a)) = map schedule_key (schedules st) /\
    map prescription (medicines (step st a)) = map prescription (medicines st).
Proof.
  intros st a. split.
  - destruct (step_schedules st a) as [ E | [ E _ ] ]; rewrite E;
      [ | reflexivity ].
    apply update_where_keys. intros s. destruct a; reflexivity.
  - rewrite step_medicines.
    destruct (completed_dose st a); [ apply updateStock_prescription | reflexivity ].
Qed.

(** X1. The operations never add, drop or reorder schedules or medicines,
    and they change nothing of a schedule but its status fields and
    nothing of a medicine but its remaining quantity: after any sequence
    of operations the schedules have the same ids, medicine ids and
    scheduled times in the same order, and the medicines are the same up
    to their remaining quantities. *)
Theorem run_keeps_identities :
  forall actions st,
    map schedule_key (schedules (run st actions)) = map schedule_key (schedules st) /\
    map prescription (medicines (run st actions)) = map prescription (medicines st).
Proof.
  unfold run. induction actions as [ | a actions IH ]; intros st;
    [ split; reflexivity | ].
  simpl. destruct (IH (step st a)) as [ Hs Hm ].
  destruct (step_keys st a) as [ Hs1 Hm1 ].
  rewrite Hs, Hm, Hs1, Hm1. split; reflexivity.
Qed.

(** X2. The agreement of flags and status after an action, from a state in
    which they agree, holds exactly when every schedule of the id of the
    action has a status the action is allowed from: the conditions of
    [allowed_from] are necessary as well as sufficient. *)
Theorem step_flags_consistent_iff :
  forall st a,
    Forall (fun s => flags_consistent s = true) (schedules st) ->
    (Forall (fun s => flags_consistent s = true) (schedules (step st a)) <->
     Forall (fun s => DoseSchedule.id s = target a ->
                      allowed_from a (DoseSchedule.status s) = true)
            (schedules st)).
Proof.
  intros st a Hflags. split; [ | apply step_preserves_flags; exact Hflags ].
  intros Hafter. rewrite Forall_forall in *. intros s Hin Hid.
  destruct (step_schedules st a) as [ E | [ _ [ Habsent _ ] ] ].
  - rewrite <- (transition_flags a s) by (apply Hflags; exact Hin).
    apply Hafter. rewrite E. unfold update_where.
    apply in_map_iff. exists s. split; [ | exact Hin ].
    rewrite Hid, String.eqb_refl. reflexivity.
  - exfalso. apply Habsent. apply in_map_iff. exists s. split; assumption.
Qed.

(** On the sample data, skipping the taken first dose: the flags
    disagree afterwards, and the first dose is not in an allowed
    status. *)
Lemma step_flags_consistent_iff_witness :
  let st := initialState 0 0 in
  let a := SkipDose "1" None in
  Forall (fun s => flags_consistent s = true) (schedules (step st a)) <->
  Forall (fun s => DoseSchedule.id s = target a ->
                   allowed_from a (DoseSchedule.status s) = true)
         (schedules st).
Proof.
  intros st a. apply (step_flags_consistent_iff st a). repeat constructor.
Defined.

(** X3. [markDoseTaken] looks for a refill on the stock it read before the
    decrement.  A dose of a medicine that stands one above its (not
    negative) threshold is taken: afterwards the medicine is at its
    threshold, so critical, and no refill order has been added. *)
Theorem markDoseTaken_refill_reads_old_stock :
  forall now env scheduleId st schedule medicine,
    find_schedule scheduleId (schedules st) = Some schedule ->
    find_medicine (DoseSchedule.medicineId schedule) (medicines st) = Some medicine ->
    0 <= Medicine.criticalThreshold medicine ->
    Medicine.remainingQuantity medicine = Medicine.criticalThreshold medicine + 1 ->
    let st' := markDoseTaken now env scheduleId st in
    refillOrders st' = refillOrders st /\
    exists medicine',
      find_medicine (DoseSchedule.medicineId schedule) (medicines st') = Some medicine' /\
      checkStockLevel medicine' = critical.
Proof.
  intros now env scheduleId st schedule medicine Hs Hm Ht Hr st'.
  unfold st', markDoseTaken. rewrite Hs, Hm. simpl. split.
  - unfold autoRefillIfNeeded, checkStockLevel. rewrite Hr.
    destruct (Z.leb_spec (Medicine.criticalThreshold medicine + 1)
                         (Medicine.criticalThreshold medicine)) as [ H | H ];
      [ lia | ].
    destruct (_ <=? _); reflexivity.
  - rewrite find_medicine_updateStock, Hm. simpl.
    assert (Hid : Medicine.id medicine = DoseSchedule.medicineId schedule).
    { unfold find_medicine in Hm. apply find_some in Hm.
      apply String.eqb_eq. exact (proj2 Hm). }
    rewrite Hid, String.eqb_refl. eexists. split; [ reflexivity | ].
    unfold checkStockLevel. simpl. rewrite Hr.
    destruct (Z.leb_spec (Z.max 0 (Medicine.criticalThreshold medicine + 1 - 1))
                         (Medicine.criticalThreshold medicine)) as [ H | H ];
      [ reflexivity | lia ].
Qed.

(** The fourth dose of the sample data, with the stock of its medicine
    raised to 16 against the threshold 15. *)
Lemma markDoseTaken_refill_reads_old_stock_witness :
  let vitamin := Medicine.mk "3" "Vitamin D3 1000IU" "1000IU" 1 100 16 15
                             "Dr. Reddy" 1704067200000 None
                             "Take with fatty meal" None None in
  let st := mkState [ vitamin ] (sampleSchedules 0 0) [] in
  let st' := markDoseTaken 5000 env0 "4" st in
  refillOrders st' = [] /\
  exists medicine',
    find_medicine "3" (medicines st') = Some medicine' /\
    checkStockLevel medicine' = critical.
Proof.
  intros vitamin st st'.
  apply (markDoseTaken_refill_reads_old_stock 5000 env0 "4" st
           (DoseSchedule.mk "4" "3" 36000000 false None false Pending None None)
           vitamin eq_refl eq_refl).
  - simpl. lia.
  - reflexivity.
Defined.

(** X4. [markDoseTaken] is not idempotent on the stock: called twice for the
    same schedule it decrements twice, so a medicine of the dose ends at
    [max 0 (remaining - 2)]. *)
Theorem markDoseTaken_twice_decrements_twice :
  forall now1 env1 now2 env2 scheduleId st schedule j m,
    find_schedule scheduleId (schedules st) = Some schedule ->
    nth_error (medicines st) j = Some m ->
    Medicine.id m = DoseSchedule.medicineId schedule ->
    exists m',
      nth_error
        (medicines (markDoseTaken now2 env2 scheduleId
                      (markDoseTaken now1 env1 scheduleId st))) j = Some m' /\
      Medicine.remainingQuantity m' = Z.max 0 (Medicine.remainingQuantity m - 2).
Proof.
  intros now1 env1 now2 env2 scheduleId st schedule j m Hs Hm Hid.
  assert (H1 : find_schedule scheduleId
                 (schedules (markDoseTaken now1 env1 scheduleId st))
               = Some (set_taken now1 schedule)).
  { unfold markDoseTaken. rewrite Hs. simpl.
    rewrite find_schedule_update_where by reflexivity. rewrite Hs. reflexivity. }
  unfold markDoseTaken at 1. rewrite H1. simpl.
  unfold markDoseTaken. rewrite Hs. simpl.
  rewrite !updateStock_nth_error, Hm. simpl.
  rewrite Hid, String.eqb_refl. simpl. rewrite Hid, String.eqb_refl.
  eexists. split; [ reflexivity | simpl; lia ].
Qed.

(** The second dose of the sample data, taken twice: the stock of the
    first medicine goes from 8 to 6. *)
Lemma markDoseTaken_twice_decrements_twice_witness :
  exists m',
    nth_error
      (medicines (markDoseTaken 6000 env0 "2"
                    (markDoseTaken 5000 env0 "2" (initialState 0 0)))) 0
    = Some m' /\
    Medicine.remainingQuantity m' = Z.max 0 (8 - 2).
Proof.
  exact (markDoseTaken_twice_decrements_twice 5000 env0 6000 env0 "2"
           (initialState 0 0)
           (DoseSchedule.mk "2" "1" 72000000 false None false Pending None None)
           0%nat _ eq_refl eq_refl eq_refl).
Defined.

(** X5. [markTakenLate] on a schedule that is present: the schedule found
    under the id afterwards has status [taken_late] and the completion
    time [now], the stock of its medicine is decremented as for
    [markDoseTaken], and, unlike [markDoseTaken], no refill is looked
    for: the refill orders are unchanged. *)
Theorem markTakenLate_marks_and_decrements :
  forall now scheduleId st schedule,
    find_schedule scheduleId (schedules st) = Some schedule ->
    let st' := markTakenLate now scheduleId st in
    (exists schedule',
       find_schedule scheduleId (schedules st') = Some schedule' /\
       DoseSchedule.status schedule' = TakenLate /\
       DoseSchedule.takenAt schedule' = Some now /\
       DoseSchedule.taken schedule' = true) /\
    medicines st' =
      updateStock (DoseSchedule.medicineId schedule) (medicines st) true /\
    refillOrders st' = refillOrders st.
Proof.
  intros now scheduleId st schedule Hs st'.
  unfold st', markTakenLate. rewrite Hs. simpl.
  split; [ | split; reflexivity ].
  exists (set_taken_late now schedule).
  rewrite find_schedule_update_where by reflexivity.
  rewrite Hs. repeat split.
Qed.

(** The critical first medicine of the sample data, its second dose
    taken late: no order, where [markDoseTaken] places one. *)
Lemma markTakenLate_marks_and_decrements_witness :
  let st := initialState 0 0 in
  refillOrders (markTakenLate 5000 "2" st) = refillOrders st /\
  List.length (refillOrders (markDoseTaken 5000 env0 "2" st)) = 1%nat.
Proof.
  intros st. split; [ | reflexivity ].
  apply (markTakenLate_marks_and_decrements 5000 "2" st
           (DoseSchedule.mk "2" "1" 72000000 false None false Pending None None)
           eq_refl).
Defined.

(** X6. [skipDose] on a schedule that is present: the schedule found under
    the id afterwards has status [missed], the flag [skipped], and the
    reason as its note (an earlier note is overwritten, by [undefined]
    when no reason is given); the stock and the orders are unchanged. *)
Theorem skipDose_marks_missed :
  forall scheduleId reason st schedule,
    find_schedule scheduleId (schedules st) = Some schedule ->
    let st' := skipDose scheduleId reason st in
    (exists schedule',
       find_schedule scheduleId (schedules st') = Some schedule' /\
       DoseSchedule.status schedule' = Missed /\
       DoseSchedule.skipped schedule' = true /\
       DoseSchedule.notes schedule' = reason /\
       DoseSchedule.takenAt schedule' = DoseSchedule.takenAt schedule) /\
    medicines st' = medicines st /\
    refillOrders st' = refillOrders st.
Proof.
  intros scheduleId reason st schedule Hs st'.
  unfold st', skipDose. simpl. split; [ | split; reflexivity ].
  exists (set_missed reason schedule).
  rewrite find_schedule_update_where by reflexivity.
  rewrite Hs. repeat split.
Qed.

Lemma skipDose_marks_missed_witness :
  let st := initialState 0 0 in
  let st' := skipDose "3" (Some "felt sick") st in
  (exists schedule',
     find_schedule "3" (schedules st') = Some schedule' /\
     DoseSchedule.status schedule' = Missed /\
     DoseSchedule.skipped schedule' = true /\
     DoseSchedule.notes schedule' = Some "felt sick" /\
     DoseSchedule.takenAt schedule' = None) /\
  medicines st' = medicines st /\
  refillOrders st' = refillOrders st.
Proof.
  intros st st'.
  exact (skipDose_marks_missed "3" (Some "felt sick") st
           (DoseSchedule.mk "3" "2" 32400000 false None false Pending None None)
           eq_refl).
Defined.

(** X7. An action leaves every schedule of another id as it is, in its
    place. *)
Theorem step_leaves_other_schedules :
  forall st a i s,
    nth_error (schedules st) i = Some s ->
    DoseSchedule.id s <> target a ->
    nth_error (schedules (step st a)) i = Some s.
Proof.
  intros st a i s Hs Hid.
  destruct (step_schedules st a) as [ E | [ E _ ] ]; rewrite E;
    [ | exact Hs ].
  unfold update_where. rewrite nth_error_map, Hs. simpl.
  destruct (String.eqb_spec (DoseSchedule.id s) (target a)) as [ H | H ];
    [ contradiction | reflexivity ].
Qed.

Lemma step_leaves_other_schedules_witness :
  nth_error (schedules (step (initialState 0 0) (MarkTakenLate 5000 "2"))) 2
  = Some (DoseSchedule.mk "3" "2" 32400000 false None false Pending None None).
Proof.
  apply (step_leaves_other_schedules (initialState 0 0) (MarkTakenLate 5000 "2")).
  - reflexivity.
  - discriminate.
Defined.

Lemma step_refillOrders :
  forall st a,
    exists added,
      refillOrders (step st a) = refillOrders st ++ added /\
      (List.length added <= if is_markDoseTaken a then 1 else 0)%nat /\
      Forall (fun o => RefillOrder.status o = "confirmed" /\
                       In (RefillOrder.medicineId o)
                          (map Medicine.id (medicines st)))
             added.
Proof.
  intros st a.
  assert (Hnone : exists added,
             refillOrders st = refillOrders st ++ added /\
             (List.length added <= if is_markDoseTaken a then 1 else 0)%nat /\
             Forall (fun o => RefillOrder.status o = "confirmed" /\
                              In (RefillOrder.medicineId o)
                                 (map Medicine.id (medicines st)))
                    added).
  { exists []. rewrite app_nil_r. split; [ reflexivity | ].
    split; [ simpl; lia | constructor ]. }
  destruct a as [ now env i | i reason | tz now i | now i ]; simpl;
    try exact Hnone.
  - unfold markDoseTaken.
    destruct (find_schedule i (schedules st)) as [ schedule | ];
      [ simpl | exact Hnone ].
    destruct (find_medicine (DoseSchedule.medicineId schedule) (medicines st))
      as [ medicine | ] eqn:Hm; [ | exact Hnone ].
    unfold autoRefillIfNeeded.
    destruct (checkStockLevel medicine); try exact Hnone.
    destruct (available env); [ | exact Hnone ].
    eexists [ _ ]. split; [ reflexivity | ].
    split; [ simpl; lia | ].
    constructor; [ | constructor ]. split; [ reflexivity | ].
    simpl. apply in_map. unfold find_medicine in Hm.
    apply find_some in Hm. exact (proj1 Hm).
  - unfold markTakenLate.
    destruct (find_schedule i (schedules st)); exact Hnone.
Qed.

(** X8. The refill orders only grow, and only through [markDoseTaken]: after
    any sequence of operations they are the orders of before followed by
    at most one new order per call of [markDoseTaken]; every new order
    is [confirmed] and is for one of the medicines of the state. *)
Theorem run_refill_orders_grow :
  forall actions st,
    exists added,
      refillOrders (run st actions) = refillOrders st ++ added /\
      (List.length added <= List.length (filter is_markDoseTaken actions))%nat /\
      Forall (fun o => RefillOrder.status o = "confirmed" /\
                       In (RefillOrder.medicineId o)
                          (map Medicine.id (medicines st)))
             added.
Proof.
  unfold run. induction actions as [ | a actions IH ]; intros st.
  - exists []. simpl. rewrite app_nil_r. repeat split; constructor.
  - simpl. destruct (IH (step st a)) as [ later [ E [ Hlen Hall ] ] ].
    destruct (step_refillOrders st a) as [ first [ E1 [ Hlen1 Hall1 ] ] ].
    exists (first ++ later). rewrite E, E1, <- app_assoc.
    split; [ reflexivity | ]. split.
    + rewrite length_app. destruct (is_markDoseTaken a); simpl in *; lia.
    + apply Forall_app. split; [ exact Hall1 | ].
      eapply Forall_impl; [ | exact Hall ].
      intros o [ Hc Hin ]. split; [ exact Hc | ].
      assert (Hids : map Medicine.id (medicines (step st a))
                     = map Medicine.id (medicines st)).
      { destruct (step_keys st a) as [ _ Hp ].
        apply (f_equal (map Medicine.id)) in Hp.
        rewrite !map_map in Hp. exact Hp. }
      rewrite <- Hids. exact Hin.
Qed.

(** The four sample doses are scheduled on the local day of the instant
    the hook starts at, in every time zone: [setHours] does not leave
    the day. *)
Theorem sample_doses_are_today :
  forall tz today,
    Forall (fun s => sameDateString tz (DoseSchedule.scheduledTime s) today = true)
           (schedules (initialState tz today)).
Proof.
  intros tz today.
  assert (Hday : forall h m,
             0 <= h * 3600000 + m * 60000 < 86400000 ->
             sameDateString tz (setHours tz today h m) today = true).
  { intros h m Hrange. unfold sameDateString, setHours.
    apply Z.eqb_eq. symmetry.
    apply (Z.div_unique_pos _ _ _ (h * 3600000 + m * 60000)); lia. }
  repeat constructor; simpl; apply Hday; lia.
Qed.

End LifecycleMore.

(* ================================================================= *)
(** ** More on the inventory service *)

Section InventoryMore.
Import InventoryService Lifecycle.

(** X9. [autoRefillIfNeeded] gives an order exactly when the stock is
    critical and the catalogue says available; the order is then for the
    medicine, for its total quantity, [confirmed], and due two days
    (172 800 000 ms) after the clock read of [placeOrder]. *)
Theorem autoRefillIfNeeded_orders_when_critical :
  forall env medicine,
    match autoRefillIfNeeded env medicine with
    | Some order =>
        Medicine.remainingQuantity medicine <= Medicine.criticalThreshold medicine /\
        available env = true /\
        RefillOrder.medicineId order = Medicine.id medicine /\
        RefillOrder.quantity order = Medicine.totalQuantity medicine /\
        RefillOrder.status order = "confirmed" /\
        RefillOrder.estimatedDelivery order
        = OneMgApiService.atDelivery (orderClock env) + 172800000
    | None =>
        Medicine.criticalThreshold medicine < Medicine.remainingQuantity medicine \/
        available env = false
    end.
Proof.
  intros env medicine. unfold autoRefillIfNeeded, checkStockLevel.
  destruct (Z.leb_spec (Medicine.remainingQuantity medicine)
                       (Medicine.criticalThreshold medicine)) as [ Hc | Hc ].
  - destruct (available env) eqn:A.
    + simpl. repeat split. exact Hc.
    + right. reflexivity.
  - destruct (_ <=? _); left; exact Hc.
Qed.

(** The order [autoRefillIfNeeded] builds is the order
    [APIService.simulateRefillOrder] builds for the total quantity, the
    clocks being read alike. *)
Theorem autoRefillIfNeeded_is_simulated_order :
  forall env medicine order,
    autoRefillIfNeeded env medicine = Some order ->
    order =
    APIService.simulateRefillOrder
      {| APIService.atOrderId := OneMgApiService.atOrderId (orderClock env);
         APIService.atDelivery := OneMgApiService.atDelivery (orderClock env);
         APIService.atId := atId env;
         APIService.atOrderDate := atOrderDate env |}
      medicine (Medicine.totalQuantity medicine).
Proof.
  intros env medicine order. unfold autoRefillIfNeeded.
  destruct (checkStockLevel medicine); try discriminate.
  destruct (available env); [ | discriminate ].
  intros H. injection H as H. subst order. reflexivity.
Qed.

Lemma autoRefillIfNeeded_is_simulated_order_witness :
  let order :=
    RefillOrder.mk "1001" "m" 100 1001 172801000 "confirmed" (Some "1MG1000") in
  order =
  APIService.simulateRefillOrder
    {| APIService.atOrderId := 1000; APIService.atDelivery := 1000;
       APIService.atId := 1001; APIService.atOrderDate := 1001 |}
    (stock_of 8 10 2) 100.
Proof.
  intros order.
  exact (autoRefillIfNeeded_is_simulated_order env0 (stock_of 8 10 2) order
           eq_refl).
Defined.

(** X10. [predictRefillDate] is the present instant moved by the days
    remaining, whole days of 86 400 000 ms, in every zone of fixed
    offset; with a stock and a frequency that are not negative it is not
    before the present. *)
Theorem predictRefillDate_days :
  forall tz now medicine,
    0 <= Medicine.remainingQuantity medicine ->
    0 <= Medicine.frequency medicine ->
    predictRefillDate tz now medicine
    = now + calculateDaysRemaining medicine * 86400000 /\
    now <= predictRefillDate tz now medicine.
Proof.
  intros tz now medicine Hr Hf.
  assert (E : predictRefillDate tz now medicine
              = now + calculateDaysRemaining medicine * 86400000).
  { unfold predictRefillDate, setDate. lia. }
  split; [ exact E | ]. rewrite E.
  assert (0 <= calculateDaysRemaining medicine); [ | lia ].
  unfold calculateDaysRemaining.
  destruct (Z.eqb_spec (Medicine.frequency medicine) 0); [ lia | ].
  apply Z.div_pos; lia.
Qed.

(** Eight tablets at two a day, on 31 January 2024 at 23:30 in a zone
    five and a half hours east: four days later, in February. *)
Lemma predictRefillDate_days_witness :
  predictRefillDate 19800000 1706724000000 (stock_of 8 10 2)
  = 1706724000000 + calculateDaysRemaining (stock_of 8 10 2) * 86400000 /\
  1706724000000 <= predictRefillDate 19800000 1706724000000 (stock_of 8 10 2).
Proof.
  apply (predictRefillDate_days 19800000 1706724000000 (stock_of 8 10 2));
    simpl; lia.
Defined.

Lemma calculateStockValue_from :
  forall medicines start,
    fold_left (fun total medicine =>
                 let estimatedPrice := 50 in
                 total + Medicine.remainingQuantity medicine * estimatedPrice)
              medicines start
    = start + calculateStockValue medicines.
Proof.
  unfold calculateStockValue.
  induction medicines as [ | m medicines IH ]; intros start; simpl; [ lia | ].
  rewrite IH, (IH (Medicine.remainingQuantity m * 50)). lia.
Qed.

Lemma calculateStockValue_cons :
  forall m medicines,
    calculateStockValue (m :: medicines)
    = 50 * Medicine.remainingQuantity m + calculateStockValue medicines.
Proof.
  intros m medicines. unfold calculateStockValue at 1. cbn [fold_left].
  rewrite calculateStockValue_from. lia.
Qed.

(** The stock value is 50 per remaining tablet, summed over the
    medicines: it is 0 for no medicine, adds [50 * remaining] for one
    more medicine, and is additive over the concatenation of lists. *)
Theorem calculateStockValue_sum :
  forall medicines more,
    calculateStockValue [] = 0 /\
    (forall m, calculateStockValue (m :: medicines)
               = 50 * Medicine.remainingQuantity m + calculateStockValue medicines) /\
    calculateStockValue (medicines ++ more)
    = calculateStockValue medicines + calculateStockValue more.
Proof.
  intros medicines more. split; [ reflexivity | ].
  split; [ intros m; apply calculateStockValue_cons | ].
  induction medicines as [ | m medicines IH ]; [ reflexivity | ].
  simpl app. rewrite !calculateStockValue_cons, IH. lia.
Qed.

(** X11. With no negative stock, a dose taken never raises the stock value,
    and the value stays at least 0. *)
Theorem calculateStockValue_after_dose :
  forall medicineId medicines taken,
    Forall nonneg_stock medicines ->
    0 <= calculateStockValue (updateStock medicineId medicines taken)
      <= calculateStockValue medicines.
Proof.
  intros medicineId medicines taken H.
  induction H as [ | m medicines Hm H IH ];
    [ unfold updateStock, calculateStockValue; simpl; lia | ].
  unfold updateStock in *. simpl map. rewrite !calculateStockValue_cons.
  unfold nonneg_stock in Hm.
  destruct (String.eqb (Medicine.id m) medicineId && taken)%bool;
    cbn [Medicine.remainingQuantity Medicine.with_remainingQuantity]; lia.
Qed.

(** The sample medicines are worth 1350; after a dose of the first,
    1300. *)
Lemma calculateStockValue_after_dose_witness :
  0 <= calculateStockValue (updateStock "1" useMedicineData.sampleMedicines true)
    <= calculateStockValue useMedicineData.sampleMedicines /\
  calculateStockValue useMedicineData.sampleMedicines = 1350 /\
  calculateStockValue (updateStock "1" useMedicineData.sampleMedicines true) = 1300.
Proof.
  split; [ | split; reflexivity ].
  apply (calculateStockValue_after_dose "1" useMedicineData.sampleMedicines true).
  unfold nonneg_stock. repeat constructor; discriminate.
Defined.

(** X12. A dose taken never improves the stock level of a medicine whose
    stock is not negative: the level after [updateStock] is the level of
    before or a lower one. *)
Theorem updateStock_never_improves_level :
  forall medicineId medicines j m m',
    nth_error medicines j = Some m ->
    0 <= Medicine.remainingQuantity m ->
    nth_error (updateStock medicineId medicines true) j = Some m' ->
    rank (checkStockLevel m') <= rank (checkStockLevel m).
Proof.
  intros medicineId medicines j m m' Hm Hr Hm'.
  rewrite updateStock_nth_error, Hm in Hm'. simpl in Hm'.
  injection Hm' as Hm'. subst m'.
  destruct (String.eqb (Medicine.id m) medicineId); [ | lia ].
  unfold checkStockLevel. simpl.
  destruct (Z.leb_spec (Z.max 0 (Medicine.remainingQuantity m - 1))
                       (Medicine.criticalThreshold m));
    destruct (Z.leb_spec (Z.max 0 (Medicine.remainingQuantity m - 1))
                         (Medicine.criticalThreshold m * 2));
    destruct (Z.leb_spec (Medicine.remainingQuantity m)
                         (Medicine.criticalThreshold m));
    destruct (Z.leb_spec (Medicine.remainingQuantity m)
                         (Medicine.criticalThreshold m * 2));
    simpl; lia.
Qed.

(** A medicine at 11 against the threshold 10 is low; after a dose it is
    critical. *)
Lemma updateStock_never_improves_level_witness :
  rank (checkStockLevel (stock_of 10 10 2)) <= rank (checkStockLevel (stock_of 11 10 2)).
Proof.
  apply (updateStock_never_improves_level "m" [ stock_of 11 10 2 ] 0
           (stock_of 11 10 2) (stock_of 10 10 2)).
  - reflexivity.
  - simpl. lia.
  - reflexivity.
Defined.

Lemma alertsFor_stock :
  forall now m,
    map medicine (filter is_stock_alert (alertsFor now m))
    = (if not_adequate m then [ m ] else []) /\
    (List.length (alertsFor now m) <= 2)%nat.
Proof.
  intros now m. unfold alertsFor, not_adequate.
  destruct (checkStockLevel m); simpl;
    destruct (Medicine.endDate m) as [ endDate | ]; simpl;
    try (destruct ((_ <=? 30) && (0 <? _))%bool; simpl);
    split; first [ reflexivity | lia ].
Qed.

Lemma forEach_alerts_stock :
  forall clock medicines i,
    map medicine (filter is_stock_alert (forEach_alerts clock i medicines))
    = filter not_adequate medicines /\
    (List.length (forEach_alerts clock i medicines)
     <= List.length medicines + List.length medicines)%nat.
Proof.
  intros clock medicines.
  induction medicines as [ | m medicines IH ]; intros i;
    [ split; [ reflexivity | simpl; lia ] | ].
  cbn [forEach_alerts filter List.length].
  destruct (IH (S i)) as [ Hs Hl ].
  destruct (alertsFor_stock (clock i) m) as [ Hs1 Hl1 ].
  rewrite filter_app, map_app, length_app, Hs, Hs1. split.
  - destruct (not_adequate m); reflexivity.
  - lia.
Qed.

(** X13. The alerts on the stock are one per medicine that is not adequate,
    in the order of the medicines, whatever the clock; and there are at
    most two alerts per medicine. *)
Theorem getStockAlerts_stock_alerts :
  forall clock medicines,
    map medicine (filter is_stock_alert (getStockAlerts clock medicines))
    = filter not_adequate medicines /\
    (List.length (getStockAlerts clock medicines) <= 2 * List.length medicines)%nat.
Proof.
  intros clock medicines. unfold getStockAlerts.
  destruct (forEach_alerts_stock clock medicines 0%nat) as [ Hs Hl ].
  split; [ exact Hs | lia ].
Qed.

(** X14. A medicine gets an alert on its expiry exactly when it has an end
    date that is after the clock read and at most 30 days
    (2 592 000 000 ms) after it. *)
Theorem alertsFor_expiring_iff :
  forall now m,
    existsb is_expiring_alert (alertsFor now m) = true <->
    exists endDate,
      Medicine.endDate m = Some endDate /\
      now < endDate <= now + 2592000000.
Proof.
  intros now m. unfold alertsFor.
  assert (Hstock : forall l,
             existsb is_expiring_alert
               ((match checkStockLevel m with
                 | critical =>
                     [ mkAlert critical_alert m
                         ("Only " ++ Z_toString (Medicine.remainingQuantity m)
                          ++ " tablets left ("
                          ++ Z_toString (calculateDaysRemaining m) ++ " days)")%string ]
                 | low =>
                     [ mkAlert low_alert m
                         ("Running low: "
                          ++ Z_toString (Medicine.remainingQuantity m)
                          ++ " tablets remaining")%string ]
                 | adequate => []
                 end) ++ l)
             = existsb is_expiring_alert l).
  { intros l. destruct (checkStockLevel m); reflexivity. }
  cbv zeta. rewrite Hstock.
  destruct (Medicine.endDate m) as [ endDate | ].
  - change (1000 * 60 * 60 * 24) with 86400000. unfold ceil_div.
    assert (Hdm := Z.div_mod (- (endDate - now)) 86400000 ltac:(lia)).
    assert (Hb := Z.mod_pos_bound (- (endDate - now)) 86400000 ltac:(lia)).
    destruct (Z.leb_spec (- (- (endDate - now) / 86400000)) 30) as [ H30 | H30 ];
      destruct (Z.ltb_spec 0 (- (- (endDate - now) / 86400000))) as [ H0 | H0 ];
      simpl; split;
      try (intros _; exists endDate; split; [ reflexivity | lia ]);
      try discriminate;
      intros [ e [ He Hrange ] ]; injection He as He; subst e; lia.
  - simpl. split; [ discriminate | ].
    intros [ e [ He _ ] ]. discriminate He.
Qed.

End InventoryMore.

(** ** The stock dashboard *)

Section StockDashboardFacts.
Import InventoryService StockDashboard.

(** X15. The three lists of the stock dashboard split the medicines: every
    medicine is in exactly one of them, so together they are a
    permutation of the medicines. *)
Theorem stock_lists_partition :
  forall medicines,
    Permutation (criticalStock medicines ++ lowStock medicines
                 ++ adequateStock medicines)
                medicines /\
    (List.length (criticalStock medicines) + List.length (lowStock medicines)
     + List.length (adequateStock medicines) = List.length medicines)%nat.
Proof.
  intros medicines.
  assert (P : Permutation (criticalStock medicines ++ lowStock medicines
                           ++ adequateStock medicines) medicines).
  { unfold criticalStock, lowStock, adequateStock.
    induction medicines as [ | m medicines IH ]; [ constructor | ].
    simpl. destruct (checkStockLevel m); simpl.
    - apply perm_skip. exact IH.
    - apply Permutation_sym, Permutation_cons_app, Permutation_sym. exact IH.
    - rewrite app_assoc.
      apply Permutation_sym, Permutation_cons_app, Permutation_sym.
      rewrite <- app_assoc. exact IH. }
  split; [ exact P | ].
  apply Permutation_length in P. rewrite !length_app in P. lia.
Qed.

End StockDashboardFacts.

(* ================================================================= *)
(** ** More on the voice responder *)

Section VoiceMore.
Import VoiceService Voice.

Lemma identifyIntent_in_intents :
  forall query, In (identifyIntent query) intents.
Proof.
  intros query. unfold identifyIntent, intents.
  repeat match goal with
         | |- context [ if ?b then _ else _ ] => destruct b
         end;
    simpl; tauto.
Qed.

Lemma generateIntakeResponse_nonempty :
  forall taken pending language,
    generateIntakeResponse taken pending language <> "".
Proof.
  intros taken pending language. unfold generateIntakeResponse.
  destruct language; destruct (nonempty taken); discriminate.
Qed.

(** Every entry of the table of responses is a text that is not empty. *)
Lemma responses_defined :
  forall language today taken pending lowStock intent,
    In intent intents ->
    exists r,
      responses language today taken pending lowStock intent = Some r /\
      r <> "".
Proof.
  intros language today taken pending lowStock intent Hin.
  unfold intents in Hin. simpl in Hin.
  destruct Hin as [ H | [ H | [ H | [ H | [ H | [] ] ] ] ] ]; subst intent;
    destruct language; eexists; (split; [ reflexivity | ]);
    first [ apply generateIntakeResponse_nonempty
          | destruct (nonempty pending); discriminate
          | destruct (nonempty lowStock); discriminate
          | discriminate ].
Qed.

(** X16. [identifyIntent] answers with one of the five intents, and the table
    of responses has a text that is not empty for each of them: so the
    response of [processQuery] is always the entry of the table for the
    intent, and the [||] fallback of [generateResponse] is never what
    answers a query. *)
Theorem processQuery_never_falls_back :
  forall tz now self query,
    let answer := processQuery tz now self query in
    In (VoiceQuery.intent answer) intents /\
    responses (currentLanguage self) (todaySchedules tz now self)
              (takenMedicines tz now self) (pendingMedicines tz now self)
              (lowStockMedicines self) (VoiceQuery.intent answer)
    = Some (VoiceQuery.response answer) /\
    VoiceQuery.response answer <> "".
Proof.
  intros tz now self query answer. unfold answer, processQuery.
  cbn [VoiceQuery.intent VoiceQuery.response].
  assert (Hin := identifyIntent_in_intents query).
  split; [ exact Hin | ].
  destruct (responses_defined (currentLanguage self) (todaySchedules tz now self)
              (takenMedicines tz now self) (pendingMedicines tz now self)
              (lowStockMedicines self) (identifyIntent query) Hin)
    as [ r [ Hr Hne ] ].
  unfold generateResponse. rewrite Hr. unfold or_else.
  destruct (String.eqb_spec r ""); [ contradiction | ].
  split; [ reflexivity | exact Hne ].
Qed.

(** X17. The test for [have i taken] never decides the intent: a text that
    contains it contains [taken], which the same rule tests.  So does
    every query with [taken] in it, whatever else it asks, get the
    intent [check_intake]. *)
Theorem identifyIntent_taken :
  forall query,
    (includes (toLowerCase query) "have i taken" = true ->
     includes (toLowerCase query) "taken" = true) /\
    (includes (toLowerCase query) "taken" = true ->
     identifyIntent query = "check_intake").
Proof.
  intros query. split.
  - apply includes_trans. vm_compute. reflexivity.
  - intros H. unfold identifyIntent. rewrite H, Bool.orb_true_r. reflexivity.
Qed.

(** A question about the stock that has the word [taken] in it. *)
Lemma identifyIntent_taken_witness :
  identifyIntent "Is the stock low for the medicine I have taken?"
  = "check_intake".
Proof.
  apply (identifyIntent_taken "Is the stock low for the medicine I have taken?").
  vm_compute. reflexivity.
Defined.

(** For an intent that is none of the five, [generateResponse] falls
    back to the general help text of the current language. *)
Theorem generateResponse_unknown_intent :
  forall tz today self intent query,
    ~ In intent intents ->
    generateResponse tz today self intent query
    = general_query (currentLanguage self).
Proof.
  intros tz today self intent query Hnot.
  assert (H1 : String.eqb intent "check_intake" = false).
  { apply String.eqb_neq. intros E. apply Hnot. rewrite E. simpl. tauto. }
  assert (H2 : String.eqb intent "next_dose" = false).
  { apply String.eqb_neq. intros E. apply Hnot. rewrite E. simpl. tauto. }
  assert (H3 : String.eqb intent "check_stock" = false).
  { apply String.eqb_neq. intros E. apply Hnot. rewrite E. simpl. tauto. }
  assert (H4 : String.eqb intent "schedule_query" = false).
  { apply String.eqb_neq. intros E. apply Hnot. rewrite E. simpl. tauto. }
  assert (H5 : String.eqb intent "general_query" = false).
  { apply String.eqb_neq. intros E. apply Hnot. rewrite E. simpl. tauto. }
  unfold generateResponse, responses.
  destruct (currentLanguage self); rewrite H1, H2, H3, H4, H5; reflexivity.
Qed.

Lemma generateResponse_unknown_intent_witness :
  generateResponse 0 0 still_need_service "refill_now" "refill now"
  = general_query en.
Proof.
  apply (generateResponse_unknown_intent 0 0 still_need_service "refill_now"
           "refill now").
  simpl. intros [ H | [ H | [ H | [ H | [ H | [] ] ] ] ] ]; discriminate H.
Defined.

(** The response is never the empty string, for any state, intent and
    query. *)
Theorem generateResponse_nonempty :
  forall tz today self intent query,
    generateResponse tz today self intent query <> "".
Proof.
  intros tz today self intent query. unfold generateResponse.
  apply or_else_nonempty, general_query_nonempty.
Qed.

(** X18. With no pending dose among the schedules of today, the response to
    [next_dose] is the fixed sentence of the current language. *)
Theorem generateResponse_no_pending :
  forall tz today self query,
    Forall (fun s => DoseSchedule.status s <> Pending)
           (todaySchedules tz today self) ->
    generateResponse tz today self "next_dose" query
    = no_pending_sentence (currentLanguage self).
Proof.
  intros tz today self query Hnone.
  assert (E : pendingMedicines tz today self = []).
  { unfold pendingMedicines.
    replace (filter _ (todaySchedules tz today self)) with (@nil DoseSchedule.t);
      [ reflexivity | ].
    symmetry. induction Hnone as [ | s l Hs _ IH ]; [ reflexivity | ].
    simpl. destruct (DoseSchedule.status s); try exact IH.
    exfalso. apply Hs. reflexivity. }
  unfold generateResponse. rewrite E.
  destruct (currentLanguage self); reflexivity.
Qed.

(** The sample data after the three pending doses are taken, skipped and
    snoozed. *)
Lemma generateResponse_no_pending_witness :
  let st := useMedicineData.run (useMedicineData.initialState 0 0)
              [ useMedicineData.MarkDoseTaken 1 Lifecycle.env0 "2";
                useMedicineData.SkipDose "3" None;
                useMedicineData.SnoozeDose (fixed 0) 2 "4" ] in
  generateResponse 0 0
    (VoiceService.mk hi (useMedicineData.medicines st)
                        (useMedicineData.schedules st))
    "next_dose" "अगली दवा"
  = no_pending_sentence hi.
Proof.
  intros st.
  apply (generateResponse_no_pending 0 0
           (VoiceService.mk hi (useMedicineData.medicines st)
                               (useMedicineData.schedules st))).
  repeat constructor; discriminate.
Defined.

(** The counts that [schedule_query] reports: the taken and the pending
    names together are at most the schedules of today (a schedule of
    another status, or of a medicine that is not found or has no name,
    is in neither list). *)
Theorem schedule_query_counts :
  forall tz today self,
    (List.length (takenMedicines tz today self)
     + List.length (pendingMedicines tz today self)
     <= List.length (todaySchedules tz today self))%nat.
Proof.
  intros tz today self. unfold takenMedicines, pendingMedicines.
  assert (Ht := names_of_length self
                  (filter (fun s => DoseStatus_eqb (DoseSchedule.status s) Taken)
                          (todaySchedules tz today self))).
  assert (Hp := names_of_length self
                  (filter (fun s => DoseStatus_eqb (DoseSchedule.status s) Pending)
                          (todaySchedules tz today self))).
  assert (Hd := filter_disjoint_length _
                  (fun s => DoseStatus_eqb (DoseSchedule.status s) Taken)
                  (fun s => DoseStatus_eqb (DoseSchedule.status s) Pending)
                  (todaySchedules tz today self)).
  cbv beta in Hd.
  assert (Hdis : forall s : DoseSchedule.t,
             DoseStatus_eqb (DoseSchedule.status s) Taken = true ->
             DoseStatus_eqb (DoseSchedule.status s) Pending = false).
  { intros s. destruct (DoseSchedule.status s); simpl; congruence. }
  specialize (Hd Hdis). lia.
Qed.



End VoiceMore.

(* ================================================================= *)
(** ** More on the hardware service *)

Section TelemetryMore.
Import BlynkService Telemetry.

(** X20. The snapshot says [connected: false] exactly when one of the seven
    requests answered [null]; the flag of the service is the flag of the
    snapshot; and the disconnected snapshot is the one of the [catch]
    block, made of its own draws, whatever the other channels
    answered. *)
Theorem connected_false_iff_null_body :
  forall now perChannel offline r,
    (BlynkData.connected (fst (fetchAllSensorData now perChannel offline r)) = false
     <-> some_null_body r = true) /\
    snd (fetchAllSensorData now perChannel offline r)
    = BlynkData.connected (fst (fetchAllSensorData now perChannel offline r)) /\
    (some_null_body r = true ->
     fst (fetchAllSensorData now perChannel offline r) = offlineData now offline).
Proof.
  intros now perChannel offline r.
  destruct (fetchAllSensorData_connected now perChannel offline r)
    as [ Hpair [ Hconn Hoff ] ].
  split; [ | split; [ | exact Hoff ] ].
  - rewrite Hconn. destruct (some_null_body r); simpl; split; congruence.
  - rewrite Hconn, Hpair. reflexivity.
Qed.

Lemma fetchAllSensorData_readings :
  forall now perChannel offline r,
    some_null_body r = false ->
    fst (fetchAllSensorData now perChannel offline r) =
    BlynkData.mk
      (or_number (reading (V0 r) (pill perChannel + 10)) 0)
      (or_number (reading (V1 r) (battery perChannel + 60)) 0)
      (or_number (reading (V2 r) (temp perChannel + 20)) 0)
      (or_number (reading (V3 r) (humid perChannel + 40)) 0)
      (or_number (reading (V4 r) 0) 0)
      (Boolean (reading (V5 r) (if motion perChannel then 1 else 0)))
      (or_number (reading (V6 r) (now - age perChannel)) now)
      true.
Proof.
  intros now perChannel offline r. unfold fetchAllSensorData, some_null_body, reading.
  destruct (index0_catch (V0 r) (pill perChannel + 10)) as [ [ N0 E0 ] | [ N0 [ v0 E0 ] ] ];
  destruct (index0_catch (V1 r) (battery perChannel + 60)) as [ [ N1 E1 ] | [ N1 [ v1 E1 ] ] ];
  destruct (index0_catch (V2 r) (temp perChannel + 20)) as [ [ N2 E2 ] | [ N2 [ v2 E2 ] ] ];
  destruct (index0_catch (V3 r) (humid perChannel + 40)) as [ [ N3 E3 ] | [ N3 [ v3 E3 ] ] ];
  destruct (index0_catch (V4 r) 0) as [ [ N4 E4 ] | [ N4 [ v4 E4 ] ] ];
  destruct (index0_catch (V5 r) (if motion perChannel then 1 else 0))
    as [ [ N5 E5 ] | [ N5 [ v5 E5 ] ] ];
  destruct (index0_catch (V6 r) (now - age perChannel)) as [ [ N6 E6 ] | [ N6 [ v6 E6 ] ] ];
  rewrite N0, N1, N2, N3, N4, N5, N6; simpl; intro H;
  first [ discriminate H
        | rewrite E0, E1, E2, E3, E4, E5, E6; reflexivity ].
Qed.

(** X21. When no request answers [null], a channel whose request fails reads
    its fallback, which lies in the range of its expression: 10..59
    pills, 60..99 per cent of battery, 20..29 degrees, 40..59 per cent
    of humidity, the dispenser status 0, and a last dispense within the
    hour before [now]. *)
Theorem rejected_channels_read_fallbacks :
  forall now perChannel offline r,
    in_range perChannel ->
    some_null_body r = false ->
    let data := fst (fetchAllSensorData now perChannel offline r) in
    (V0 r = Rejected -> 10 <= BlynkData.pillCount data < 60) /\
    (V1 r = Rejected -> 60 <= BlynkData.batteryLevel data < 100) /\
    (V2 r = Rejected -> 20 <= BlynkData.temperature data < 30) /\
    (V3 r = Rejected -> 40 <= BlynkData.humidity data < 60) /\
    (V4 r = Rejected -> BlynkData.dispenserStatus data = 0) /\
    (V5 r = Rejected -> BlynkData.motionSensor data = motion perChannel) /\
    (V6 r = Rejected -> now - 3600000 < BlynkData.lastDispensed data <= now).
Proof.
  intros now perChannel offline r
         [ Hp [ Hb [ Ht [ Hh Ha ] ] ] ] Hnull data.
  unfold data. rewrite fetchAllSensorData_readings by exact Hnull.
  cbn [BlynkData.pillCount BlynkData.batteryLevel BlynkData.temperature
       BlynkData.humidity BlynkData.dispenserStatus BlynkData.motionSensor
       BlynkData.lastDispensed].
  repeat match goal with |- _ /\ _ => split end;
    intros E; rewrite E; unfold reading;
    cbn [catch index0 hd_error or_number Boolean];
    try match goal with
        | |- context [ Z.eqb ?x 0 ] => destruct (Z.eqb_spec x 0)
        end;
    first [ lia
          | reflexivity
          | destruct (motion perChannel); simpl; congruence ].
Qed.

(** Every request fails, with the draws of the example. *)
Lemma rejected_channels_read_fallbacks_witness :
  let data := fst (fetchAllSensorData 5000000 draws0 draws0 all_rejected) in
  10 <= BlynkData.pillCount data < 60 /\
  BlynkData.dispenserStatus data = 0 /\
  5000000 - 3600000 < BlynkData.lastDispensed data <= 5000000.
Proof.
  intros data.
  assert (Hrange : in_range draws0) by (unfold in_range; simpl; lia).
  destruct (rejected_channels_read_fallbacks 5000000 draws0 draws0 all_rejected
              Hrange eq_refl)
    as [ H0 [ _ [ _ [ _ [ H4 [ _ H6 ] ] ] ] ] ].
  split; [ exact (H0 eq_refl) | split; [ exact (H4 eq_refl) | exact (H6 eq_refl) ] ].
Defined.

Lemma subscribe_all_listeners :
  forall callbacks self,
    listeners (subscribe_all callbacks self) = listeners self ++ callbacks /\
    lastData (subscribe_all callbacks self) = lastData self.
Proof.
  unfold subscribe_all.
  induction callbacks as [ | cb callbacks IH ]; intros self; simpl.
  - rewrite app_nil_r. split; reflexivity.
  - destruct (IH (fst (subscribe cb self))) as [ Hl Hd ].
    rewrite Hl, Hd. unfold subscribe.
    destruct (lastData self); simpl; rewrite <- app_assoc; split; reflexivity.
Qed.

(** X22. A callback that subscribes after a poll is called at once with the
    snapshot of that poll; one that subscribes to a new service is not
    called; and either is called with the snapshot of the next poll. *)
Theorem subscribe_delivers_cached_snapshot :
  forall now perChannel offline r self callback,
    let polled := fst (poll now perChannel offline r self) in
    let data := fst (fetchAllSensorData now perChannel offline r) in
    snd (subscribe callback polled) = [ (callback, data) ] /\
    snd (subscribe callback initial) = [] /\
    In (callback, data)
       (snd (poll now perChannel offline r (fst (subscribe callback self)))).
Proof.
  intros now perChannel offline r self callback. unfold poll.
  destruct (fetchAllSensorData now perChannel offline r) as [ data connected ].
  simpl. split; [ reflexivity | split; [ reflexivity | ] ].
  unfold notifyListeners, subscribe.
  destruct (lastData self); simpl; apply in_map_iff; exists callback;
    (split; [ reflexivity | apply in_or_app; right; left; reflexivity ]).
Qed.

(** A poll calls the listeners in the order in which they subscribed,
    once for each subscription, each with the snapshot of the poll. *)
Theorem poll_calls_in_subscription_order :
  forall now perChannel offline r callbacks,
    snd (poll now perChannel offline r (subscribe_all callbacks initial))
    = map (fun callback =>
             (callback, fst (fetchAllSensorData now perChannel offline r)))
          callbacks.
Proof.
  intros now perChannel offline r callbacks. unfold poll.
  destruct (fetchAllSensorData now perChannel offline r) as [ data connected ].
  unfold notifyListeners. simpl.
  destruct (subscribe_all_listeners callbacks initial) as [ Hl _ ].
  rewrite Hl. reflexivity.
Qed.

(** X23. The function [subscribe] returns removes every subscription of the
    callback at once (a callback that subscribed twice does not stay
    subscribed once): the calls of a poll after it are the calls of the
    poll without it, less all those to the callback. *)
Theorem unsubscribe_removes_every_subscription :
  forall now perChannel offline r callback self,
    calls_of callback
      (snd (poll now perChannel offline r (unsubscribe callback self))) = [] /\
    snd (poll now perChannel offline r (unsubscribe callback self))
    = filter (fun c => negb (Nat.eqb (fst c) callback))
             (snd (poll now perChannel offline r self)).
Proof.
  intros now perChannel offline r callback self. unfold poll.
  destruct (fetchAllSensorData now perChannel offline r) as [ data connected ].
  unfold notifyListeners, unsubscribe, calls_of. simpl.
  induction (listeners self) as [ | l ls [ IH1 IH2 ] ]; simpl;
    [ split; reflexivity | ].
  destruct (Nat.eqb l callback) eqn:E; simpl; [ split; assumption | ].
  rewrite E. split; [ exact IH1 | f_equal; exact IH2 ].
Qed.

(** X24. [dispensePill] returns true exactly when both requests succeed; the
    second request is made only when the first succeeds; and in every
    case one activity of type [dispense] is added to the log, with the
    returned flag as its success and the clock read as its time. *)
Theorem dispensePill_outcome :
  forall atId atTimestamp v10 v11 medicineId self,
    let result := dispensePill atId atTimestamp v10 v11 medicineId self in
    fst (fst result) = (negb (rejected v10) && negb (rejected v11))%bool /\
    snd (fst result)
    = (if rejected v10 then [ "update/V10" ]
       else [ "update/V10"; "update/V11" ]) /\
    (exists entry,
       activities (snd result) = addActivity entry (activities self) /\
       HardwareActivity.success entry = fst (fst result) /\
       HardwareActivity.type entry = Dispense /\
       HardwareActivity.timestamp entry = atTimestamp) /\
    listeners (snd result) = listeners self /\
    lastData (snd result) = lastData self.
Proof.
  intros atId atTimestamp v10 v11 medicineId self result. unfold result.
  unfold dispensePill. destruct v10 as [ | b10 ]; [ | destruct v11 as [ | b11 ] ];
    simpl; repeat split; eexists; repeat split.
Qed.

(** X25. [sendNotification] returns true exactly when its request succeeds.
    On success one activity of type [notification] is added to the log;
    on failure the service is left as it was: unlike a failed dispense,
    a failed notification is not logged. *)
Theorem sendNotification_outcome :
  forall atId atTimestamp v20 type message self,
    let result := sendNotification atId atTimestamp v20 type message self in
    fst result = negb (rejected v20) /\
    (if fst result
     then exists entry,
            activities (snd result) = addActivity entry (activities self) /\
            HardwareActivity.success entry = true /\
            HardwareActivity.type entry = Notification
     else snd result = self).
Proof.
  intros atId atTimestamp v20 type message self result. unfold result.
  unfold sendNotification. destruct v20 as [ | b20 ]; simpl.
  - split; reflexivity.
  - split; [ reflexivity | ]. eexists. repeat split.
Qed.

Lemma addActivity_length :
  forall a log,
    (List.length (addActivity a log) <= 50)%nat /\
    (List.length (addActivity a log) <= S (List.length log))%nat.
Proof.
  intros a log. rewrite addActivity_firstn. split.
  - apply firstn_le_length.
  - rewrite length_firstn. cbn [List.length]. lia.
Qed.

Lemma log_step_length :
  forall self a,
    (List.length (activities self) <= 50)%nat ->
    (List.length (activities (log_step self a)) <= 50)%nat /\
    (List.length (activities (log_step self a))
     <= S (List.length (activities self)))%nat.
Proof.
  intros self a Hlen.
  destruct a as [ atId atT v10 v11 medicineId | atId atT v20 type message ];
    simpl; unfold dispensePill, sendNotification.
  - destruct v10 as [ | b10 ]; [ | destruct v11 as [ | b11 ] ]; simpl;
      apply addActivity_length.
  - destruct v20 as [ | b20 ]; simpl; [ lia | apply addActivity_length ].
Qed.

(** X26. Through any sequence of dispenses and notifications on a new
    service, successful or failed, the log has at most 50 entries and at
    most one entry per operation. *)
Theorem service_log_bounded :
  forall actions,
    (List.length (activities (fold_left log_step actions initial)) <= 50)%nat /\
    (List.length (activities (fold_left log_step actions initial))
     <= List.length actions)%nat.
Proof.
  intros actions.
  assert (H : forall self,
             (List.length (activities self) <= 50)%nat ->
             (List.length (activities (fold_left log_step actions self)) <= 50)%nat /\
             (List.length (activities (fold_left log_step actions self))
              <= List.length (activities self) + List.length actions)%nat).
  { induction actions as [ | a actions IH ]; intros self Hlen; simpl;
      [ lia | ].
    destruct (log_step_length self a Hlen) as [ H50 H1 ].
    destruct (IH (log_step self a) H50) as [ G50 G1 ]. lia. }
  destruct (H initial) as [ H50 Hn ]; [ simpl; lia | ].
  simpl in Hn. split; assumption.
Qed.

End TelemetryMore.

(* ================================================================= *)
(** ** The catalogue and the shopping cart *)

Section CartFacts.
Import OneMgApiService ShoppingCartDashboard Cart.

Lemma lower_ascii_idempotent :
  forall c, lower_ascii (lower_ascii c) = lower_ascii c.
Proof.
  intros c. destruct c as [ [] [] [] [] [] [] [] [] ]; reflexivity.
Qed.

Lemma toLowerCase_idempotent :
  forall s, toLowerCase (toLowerCase s) = toLowerCase s.
Proof.
  induction s as [ | c s IH ]; simpl; [ reflexivity | ].
  rewrite lower_ascii_idempotent, IH. reflexivity.
Qed.

(** X27. The catalogue search gives catalogue entries whose lower-cased name
    contains the lower-cased query, in the order of the catalogue; it
    does not depend on the case of the query; and the empty query gives
    the whole catalogue. *)
Theorem searchMedicine_matches :
  forall query,
    (forall med,
       In med (searchMedicine query) <->
       In med mockMedicines /\
       includes (toLowerCase (name med)) (toLowerCase query) = true) /\
    searchMedicine (toLowerCase query) = searchMedicine query /\
    searchMedicine "" = mockMedicines.
Proof.
  intros query. split; [ | split ].
  - intros med. unfold searchMedicine. apply filter_In.
  - unfold searchMedicine. rewrite toLowerCase_idempotent. reflexivity.
  - reflexivity.
Qed.

Lemma map_item_id_update :
  forall (p : CartItem -> bool) (q : CartItem -> Z) cartItems,
    map item_id
        (map (fun item => if p item then with_quantity item (q item) else item)
             cartItems)
    = map item_id cartItems.
Proof.
  intros p q cartItems. rewrite map_map. apply map_ext.
  intros item. destruct (p item); reflexivity.
Qed.

Lemma find_app_none :
  forall (A : Type) (p : A -> bool) (l l' : list A),
    find p l = None -> find p (l ++ l') = find p l'.
Proof.
  intros A p l l'. induction l as [ | x l IH ]; simpl; [ reflexivity | ].
  destruct (p x); [ discriminate | exact IH ].
Qed.

Lemma find_item_absent :
  forall medicineId cartItems,
    find_item medicineId cartItems = None ->
    ~ In medicineId (map item_id cartItems).
Proof.
  intros medicineId cartItems Hnone Hin. unfold find_item in Hnone.
  apply in_map_iff in Hin. destruct Hin as [ item [ Hid Hin ] ].
  apply (find_none _ _ Hnone) in Hin. rewrite Hid, String.eqb_refl in Hin.
  discriminate Hin.
Qed.

(** X28. [addToCart] keeps the catalogue ids of the cart distinct; the item
    of the medicine afterwards has the quantity added to the one it had,
    or the quantity alone when the medicine was not in the cart. *)
Theorem addToCart_adds_quantity :
  forall med q cartItems,
    NoDup (map item_id cartItems) ->
    NoDup (map item_id (addToCart med q cartItems)) /\
    option_map quantity (find_item (id med) (addToCart med q cartItems))
    = Some (match find_item (id med) cartItems with
            | Some item => quantity item + q
            | None => q
            end).
Proof.
  intros med q cartItems Hnodup. unfold addToCart. fold (find_item (id med) cartItems).
  destruct (find_item (id med) cartItems) as [ item | ] eqn:F.
  - split.
    + rewrite (map_item_id_update
                 (fun item => String.eqb (item_id item) (id med))
                 (fun item => quantity item + q)).
      exact Hnodup.
    + unfold find_item in *. rewrite find_map_preserving.
      * rewrite F. simpl.
        apply find_some in F. destruct F as [ _ F ]. rewrite F. reflexivity.
      * intros x. destruct (String.eqb (item_id x) (id med)) eqn:E;
          cbv beta; rewrite ?E; first [ reflexivity | exact E ].
  - split.
    + rewrite map_app. apply NoDup_app.
      * exact Hnodup.
      * repeat constructor. intros [].
      * intros a Ha [ Hb | [] ]. simpl in Hb. subst a.
        exact (find_item_absent _ _ F Ha).
    + unfold find_item in *. rewrite (find_app_none _ _ _ _ F). simpl.
      unfold item_id. simpl. rewrite String.eqb_refl. reflexivity.
Qed.

(** The first catalogue entry added twice, three and then two packs. *)
Lemma addToCart_adds_quantity_witness :
  let med := hd (mkMedicine "" "" "" 0 0 0 false false "" "" "") mockMedicines in
  let cart := addToCart med 3 [] in
  NoDup (map item_id (addToCart med 2 cart)) /\
  option_map quantity (find_item "1mg_001" (addToCart med 2 cart)) = Some (3 + 2).
Proof.
  intros med cart.
  apply (addToCart_adds_quantity med 2 cart).
  repeat constructor. intros [].
Defined.

(** X29. [updateQuantity] keeps every quantity of the cart positive, for any
    new quantity; the medicine is in the cart afterwards exactly when it
    was and the new quantity is positive. *)
Theorem updateQuantity_keeps_positive :
  forall medicineId newQuantity cartItems,
    Forall positive_quantity cartItems ->
    Forall positive_quantity (updateQuantity medicineId newQuantity cartItems) /\
    (In medicineId (map item_id (updateQuantity medicineId newQuantity cartItems))
     <-> 0 < newQuantity /\ In medicineId (map item_id cartItems)).
Proof.
  intros medicineId newQuantity cartItems Hpos. unfold updateQuantity.
  destruct (Z.leb_spec newQuantity 0) as [ Hle | Hgt ].
  - unfold removeFromCart. split.
    + rewrite Forall_forall in *. intros item Hin.
      apply filter_In in Hin. apply Hpos. exact (proj1 Hin).
    + split; [ | intros [ H _ ]; lia ].
      intros Hin. exfalso. apply in_map_iff in Hin.
      destruct Hin as [ item [ Hid Hin ] ]. apply filter_In in Hin.
      destruct Hin as [ _ Hne ]. rewrite Hid, String.eqb_refl in Hne.
      discriminate Hne.
  - split.
    + apply Forall_map. eapply Forall_impl; [ | exact Hpos ].
      intros item Hitem. unfold positive_quantity in *.
      destruct (String.eqb (item_id item) medicineId); [ exact Hgt | exact Hitem ].
    + rewrite (map_item_id_update
                 (fun item => String.eqb (item_id item) medicineId)
                 (fun _ => newQuantity)).
      tauto.
Qed.

Lemma updateQuantity_keeps_positive_witness :
  let med := hd (mkMedicine "" "" "" 0 0 0 false false "" "" "") mockMedicines in
  let cart := addToCart med 3 [] in
  Forall positive_quantity (updateQuantity "1mg_001" (-1) cart) /\
  (In "1mg_001" (map item_id (updateQuantity "1mg_001" (-1) cart))
   <-> 0 < -1 /\ In "1mg_001" (map item_id cart)).
Proof.
  intros med cart.
  apply (updateQuantity_keeps_positive "1mg_001" (-1) cart).
  repeat constructor.
Defined.

(** The cart loaded for the critical medicines has, in their order, one
    item for each medicine the catalogue finds: the first match of the
    search for its name, in the total quantity of the medicine, with the
    medicine as its original. *)
Theorem loadCriticalMedicines_items :
  forall criticalMedicines,
    Forall (fun item =>
              exists m,
                originalMedicine item = Some m /\
                In m criticalMedicines /\
                quantity item = Medicine.totalQuantity m /\
                hd_error (searchMedicine (Medicine.name m)) = Some (medicine item))
           (loadCriticalMedicines criticalMedicines) /\
    (List.length (loadCriticalMedicines criticalMedicines)
     <= List.length criticalMedicines)%nat.
Proof.
  induction criticalMedicines as [ | m rest [ IH1 IH2 ] ]; simpl.
  - split; [ constructor | lia ].
  - assert (Hrest : Forall (fun item =>
                      exists m0,
                        originalMedicine item = Some m0 /\
                        (m = m0 \/ In m0 rest) /\
                        quantity item = Medicine.totalQuantity m0 /\
                        hd_error (searchMedicine (Medicine.name m0))
                        = Some (medicine item))
                     (loadCriticalMedicines rest)).
    { eapply Forall_impl; [ | exact IH1 ].
      intros item [ m0 [ H1 [ H2 [ H3 H4 ] ] ] ].
      exists m0. repeat split; try assumption. right. exact H2. }
    destruct (searchMedicine (Medicine.name m)) as [ | first others ] eqn:S.
    + split; [ exact Hrest | lia ].
    + split; [ | simpl; lia ].
      constructor; [ | exact Hrest ].
      exists m. simpl. rewrite S. repeat split. left. reflexivity.
Qed.

End CartFacts.

(* ================================================================= *)
(** ** Dispensing from the dashboard *)

Section DashboardFacts.
Import useMedicineData BlynkService Telemetry Dashboard.

Lemma markDoseTaken_stale_same :
  forall now env scheduleId st,
    markDoseTaken_stale now env scheduleId st st
    = markDoseTaken now env scheduleId st.
Proof.
  intros now env scheduleId st. reflexivity.
Qed.


(** Two clicks on the dispense button of the second sample dose during
    one render, both dispenses succeeding: the second handler still sees
    the dose as pending, and the stock of its medicine goes from 8 to
    6. *)
Lemma handleDispenseFromHardware_double_click :
  let captured := initialState 0 0 in
  let ok := Resolved (JArr [ 1 ]) in
  let once :=
    handleDispenseFromHardware 0 0 1 1 ok ok 5000 Lifecycle.env0 "1"
                               captured captured initial in
  let twice :=
    handleDispenseFromHardware 0 0 2 2 ok ok 6000 Lifecycle.env0 "1"
                               captured (fst once) (snd once) in
  map Medicine.remainingQuantity (medicines (fst once)) = [ 7; 4; 15 ] /\
  map Medicine.remainingQuantity (medicines (fst twice)) = [ 6; 4; 15 ] /\
  List.length (activities (snd twice)) = 2%nat.
Proof.
  repeat split.
Qed.

End DashboardFacts.
